(** * The schedule service: weekly grid, field validator, workload statistics

    A shallow embedding of [src/app/services/schedule.service.ts]
    (class [ScheduleService]): the two constant catalogs, [formatWeeklyGrid],
    [validateScheduleData], [getScheduleStatistics] and [calculateDuration],
    together with the part of the ECMAScript semantics these four methods
    rest on (property lookup and creation on object literals, the order in
    which [Object.values] lists properties, binary64 numbers, [Date]). *)

From Stdlib Require Import ZArith List String Ascii Bool Lia.
From Stdlib Require Import Permutation Sorted Mergesort Orders FinFun.
From Stdlib Require Import QArith Qabs.
From Stdlib Require Import Uint63 Floats.
From Stdlib Require Import DecimalString DecimalPos DecimalZ.
Import ListNotations.

#[local] Close Scope Q_scope.
#[local] Open Scope string_scope.
#[local] Open Scope list_scope.
#[local] Open Scope Z_scope.

Set Implicit Arguments.

(* ================================================================= *)
(** * The host language *)

Module JS.

(** ** Ordinary objects

    An object literal is the list of its own properties in the order of
    their creation.  Its prototype is [%Object.prototype%]. *)

Definition object (K V : Type) : Type := list (K * V).

Section OwnProperties.
Context {K V : Type} (eqb : K -> K -> bool).

(** [[GetOwnProperty]] *)
Fixpoint getOwn (o : object K V) (k : K) : option V :=
  match o with
  | [] => None
  | (k', v) :: o' => if eqb k' k then Some v else getOwn o' k
  end.

(** An own data property is written where it stands; a new one is
    created after those the object already has. *)
Fixpoint setOwn (o : object K V) (k : K) (v : V) : object K V :=
  match o with
  | [] => [(k, v)]
  | (k', v') :: o' =>
      if eqb k' k then (k', v) :: o' else (k', v') :: setOwn o' k v
  end.

Definition ownKeys (o : object K V) : list K := map fst o.
End OwnProperties.

(** ** Properties named by strings *)

(** The properties of [%Object.prototype%].  Each has a value other than
    [undefined]: eleven are functions in writable data properties, and
    [__proto__] is an accessor whose getter answers the prototype of the
    receiver and whose setter replaces it. *)
Definition ObjectPrototype : list string :=
  [ "constructor"; "hasOwnProperty"; "isPrototypeOf"; "propertyIsEnumerable";
    "toLocaleString"; "toString"; "valueOf";
    "__defineGetter__"; "__defineSetter__"; "__lookupGetter__";
    "__lookupSetter__"; "__proto__" ].

Definition inherited (name : string) : bool :=
  existsb (String.eqb name) ObjectPrototype.

(** What [o[name]] finds on an object literal [o]: an own property, a
    property of the prototype, or nothing ([undefined]). *)
Inductive property (V : Type) : Type :=
| Own (v : V)
| Inherited
| Undefined.
Arguments Own {V} v.
Arguments Inherited {V}.
Arguments Undefined {V}.

(** [[Get]] on an object literal *)
Definition Get {V : Type} (o : object string V) (name : string) : property V :=
  match getOwn String.eqb o name with
  | Some v => Own v
  | None => if inherited name then Inherited else Undefined
  end.

(** Eleven of the properties of [%Object.prototype%] hold a built-in
    function ([constructor] holds [Object] itself), which is what [o[name]]
    answers for an object literal [o] without an own property of that
    name. *)
Definition holdsFunction (name : string) : bool :=
  inherited name && negb (String.eqb name "__proto__").

(** Every built-in function has the own data properties [name], a string,
    and [length], a number, and neither is writable.  In strict code, which
    the code of a module is, an assignment to a property that is not
    writable throws a [TypeError]. *)
Definition notWritable (name : string) : bool :=
  existsb (String.eqb name) ["name"; "length"].

(** [Object.keys] of an object none of whose property names is an array
    index: creation order. *)
Definition Object_keys {V : Type} (o : object string V) : list string :=
  ownKeys o.

(** ** Properties named by numbers

    A number used as a property name is converted by [ToString]; for an
    integer that is its decimal numeral, so that two integers name the
    same property exactly when they are equal.  The name is an array
    index when the integer lies between 0 and 2^32 - 2. *)
Definition isArrayIndex (k : Z) : bool := (0 <=? k) && (k <? 2 ^ 32 - 1).

Module ZOrder <: TotalLeBool.
Definition t := Z.
Definition leb := Z.leb.
Lemma leb_total : forall x y : t, leb x y = true \/ leb y x = true.
Proof. unfold leb; intros x y; rewrite !Z.leb_le; lia. Qed.
End ZOrder.
Module ZSort := Sort ZOrder.

(** [OrdinaryOwnPropertyKeys]: the array indices in ascending numeric
    order, then the other names in the order of their creation. *)
Definition propertyOrder (keys : list Z) : list Z :=
  ZSort.sort (filter isArrayIndex keys)
    ++ filter (fun k => negb (isArrayIndex k)) keys.

Definition OrdinaryOwnPropertyKeys {V : Type} (o : object Z V) : list Z :=
  propertyOrder (ownKeys o).

(** [Object.values] *)
Definition Object_values {V : Type} (o : object Z V) : list V :=
  flat_map (fun k => match getOwn Z.eqb o k with Some v => [v] | None => [] end)
           (OrdinaryOwnPropertyKeys o).

(** ** Strings

    A string is the sequence of its code units.  [a >= b] on two strings
    is the negation of [a < b], the lexicographic order of the code
    units; a string is truthy unless it is empty.  (The letters beyond
    ASCII of the messages below stand in their UTF-8 bytes; the messages
    are only ever compared for equality.) *)
Definition string_ge (a b : string) : bool := negb (String.ltb a b).

Definition truthy_string (s : string) : bool := negb (String.eqb s "").

Definition isDigit (c : ascii) : bool :=
  let n := Z.of_N (N_of_ascii c) in (48 <=? n) && (n <=? 57).

(** [/^\d{4}-\d{4}$/.test(s)] *)
Definition yearPattern_test (s : string) : bool :=
  match list_ascii_of_string s with
  | [y1; y2; y3; y4; dash; z1; z2; z3; z4] =>
      forallb isDigit [y1; y2; y3; y4] && Ascii.eqb dash "-"
        && forallb isDigit [z1; z2; z3; z4]
  | _ => false
  end.

(** ** Numbers

    A number is a binary64 floating-point number. *)
Definition number : Type := float.

(** [!x] is true of [+0], [-0] and [NaN]. *)
Definition truthy_number (x : number) : bool := negb (is_zero x || is_nan x).

(** The number nearest to an integer of magnitude below 2^63 (ties to
    even); the integer itself when its magnitude is at most 2^53. *)
Definition Number_of_Z (z : Z) : number :=
  if z <? 0 then (- of_uint63 (Uint63.of_Z (- z)))%float
  else of_uint63 (Uint63.of_Z z).

(** The rational number a finite number stands for. *)
Definition Number_value (x : number) : option Q :=
  match Prim2SF x with
  | S754_zero _ => Some 0%Q
  | S754_finite s m e =>
      let mant := if s then Z.neg m else Z.pos m in
      Some (if 0 <=? e then inject_Z (mant * 2 ^ e)
            else Qmake mant (Z.to_pos (2 ^ (- e))))
  | S754_infinity _ | S754_nan => None
  end.

(** ** Dates

    Two things are the host's: the offset of the local time zone from UTC
    on 1 January 2000, in milliseconds, taken to be the same all that
    day; and what [Date.parse] makes of a string that is not a time of
    the form [2000-01-01THH:mm:ss] (another form of the date-time format,
    a format of the implementation's own, or an invalid date, whose time
    value is [NaN]). *)
Record Host : Type := {
  LocalTZA : Z;
  Date_parse_other : string -> option Z
}.

Definition digit (c : ascii) : option Z :=
  if isDigit c then Some (Z.of_N (N_of_ascii c) - 48) else None.

Definition two_digits (c1 c2 : ascii) : option Z :=
  match digit c1, digit c2 with
  | Some a, Some b => Some (10 * a + b)
  | _, _ => None
  end.

Fixpoint strip_prefix (p s : string) : option string :=
  match p, s with
  | EmptyString, _ => Some s
  | String a p', String b s' => if Ascii.eqb a b then strip_prefix p' s' else None
  | String _ _, EmptyString => None
  end.

(** [HH:mm:ss], in milliseconds since midnight: hours 00 to 23, or
    24:00:00 for the end of the day. *)
Definition time_of_day (s : string) : option Z :=
  match list_ascii_of_string s with
  | [h1; h2; c1; m1; m2; c2; s1; s2] =>
      if Ascii.eqb c1 ":" && Ascii.eqb c2 ":" then
        match two_digits h1 h2, two_digits m1 m2, two_digits s1 s2 with
        | Some h, Some m, Some sec =>
            if ((h <=? 23) && (m <=? 59) && (sec <=? 59))
               || ((h =? 24) && (m =? 0) && (sec =? 0))
            then Some (((h * 60 + m) * 60 + sec) * 1000)
            else None
        | _, _, _ => None
        end
      else None
  | _ => None
  end.

(** Midnight of 1 January 2000, UTC: day 10957 of the epoch. *)
Definition msPerDay : Z := 86400000.
Definition jan_1_2000 : Z := 10957 * msPerDay.

(** The time value of [new Date(s)] for a string [s], [None] for [NaN]
    (an invalid date).  A date-time without offset is local time. *)
Definition Date_parse (host : Host) (s : string) : option Z :=
  match strip_prefix "2000-01-01T" s with
  | Some rest =>
      match time_of_day rest with
      | Some ms => Some (jan_1_2000 + ms - LocalTZA host)
      | None => Date_parse_other host s
      end
  | None => Date_parse_other host s
  end.

(** [end.getTime() - start.getTime()].  A time value is an integer of
    magnitude at most 8.64e15, below 2^53, hence a number; the difference
    of two of them is their difference as integers, rounded. *)
Definition time_difference (end_ start : option Z) : number :=
  match end_, start with
  | Some e, Some s => Number_of_Z (e - s)
  | _, _ => nan
  end.

(** ** What a response carries

    The values of JSON, with [undefined]. *)
#[warnings="-register-all"]
Inductive any : Type :=
| V_undefined
| V_null
| V_boolean (b : bool)
| V_number (x : number)
| V_string (s : string)
| V_array (items : list any)
| V_object (properties : object string any).

Definition ToBoolean (v : any) : bool :=
  match v with
  | V_undefined | V_null => false
  | V_boolean b => b
  | V_number x => truthy_number x
  | V_string s => truthy_string s
  | V_array _ | V_object _ => true
  end.

(** [v?.name], for a name by which no prototype has a property and which
    is neither [length] nor an index (so [error] and [message]): the own
    property of an object, and [undefined] on anything else. *)
Definition optional_member (v : any) (name : string) : any :=
  match v with
  | V_object properties =>
      match getOwn String.eqb properties name with
      | Some x => x
      | None => V_undefined
      end
  | _ => V_undefined
  end.

(** ** [localStorage] *)

Definition Storage : Type := object string string.

(** [getItem], [None] for [null] *)
Definition getItem (storage : Storage) (key : string) : option string :=
  getOwn String.eqb storage key.

(** A string or [null] in a template literal *)
Definition template_of (s : option string) : string :=
  match s with
  | Some s => s
  | None => "null"
  end.

(** [Number::toString] of an integer of magnitude below 10^21: its decimal
    numeral. *)
Definition Number_toString (z : Z) : string :=
  NilZero.string_of_int (Z.to_int z).

(** The integer that a number is, when it is one ([-0] is [0]). *)
Definition Number_integer (x : number) : option Z :=
  match Prim2SF x with
  | S754_zero _ => Some 0
  | S754_finite s m e =>
      let sign := fun n : Z => if s then - n else n in
      if 0 <=? e then Some (sign (Z.pos m * 2 ^ e))
      else if Z.pos m mod 2 ^ (- e) =? 0
           then Some (sign (Z.pos m / 2 ^ (- e)))
           else None
  | S754_infinity _ | S754_nan => None
  end.

(** [Number::toString] of any number.  What it writes for a number that is
    not an integer of magnitude below 10^21 (a fraction, a greater
    magnitude, an infinity, [NaN]) is given by [other]. *)
Definition Number_toString_number (other : number -> string) (x : number)
  : string :=
  match Number_integer x with
  | Some z => if Z.abs z <? 10 ^ 21 then Number_toString z else other x
  | None => other x
  end.

(** ** [URLSearchParams]

    The serializer of [application/x-www-form-urlencoded]: each name and
    value in UTF-8, byte by byte; a letter, a digit and [*-._] stand for
    themselves, the space becomes [+], every other byte [%] and two
    hexadecimal digits in upper case.  A code unit of a string is below 256
    here, so that its UTF-8 is one byte or two. *)
Definition URLSearchParams : Type := list (string * string).

Definition URLSearchParams_append (params : URLSearchParams)
           (name value : string) : URLSearchParams :=
  params ++ [(name, value)].

Definition utf8 (c : ascii) : list ascii :=
  let n := N_of_ascii c in
  if (n <? 128)%N then [c]
  else [ascii_of_N (192 + n / 64); ascii_of_N (128 + n mod 64)].

Definition isAlphanumeric (c : ascii) : bool :=
  let n := N_of_ascii c in
  ((48 <=? n) && (n <=? 57) || (65 <=? n) && (n <=? 90)
   || (97 <=? n) && (n <=? 122))%N.

Definition hexDigit (d : N) : ascii :=
  if (d <? 10)%N then ascii_of_N (48 + d) else ascii_of_N (55 + d).

Definition percentEncode (byte : ascii) : string :=
  if isAlphanumeric byte
     || existsb (Ascii.eqb byte) ["*"; "-"; "."; "_"]%char
  then String byte ""
  else if Ascii.eqb byte " " then "+"
  else String "%" (String (hexDigit (N_of_ascii byte / 16))
                     (String (hexDigit (N_of_ascii byte mod 16)) "")).

Definition urlencode (s : string) : string :=
  String.concat ""
    (map percentEncode (flat_map utf8 (list_ascii_of_string s))).

Definition URLSearchParams_toString (params : URLSearchParams) : string :=
  String.concat "&"
    (map (fun tuple => (urlencode (fst tuple) ++ "=" ++ urlencode (snd tuple))%string)
         params).

(** ** [HttpHeaders] *)

Definition HttpHeaders : Type := list (string * string).

End JS.

(* ================================================================= *)
(** * The service *)

Module ScheduleService.
Import JS.

(** [interface Schedule].  The identifiers are integers; the optional
    [created_at] and [updated_at] are read by none of the methods below. *)
Record Schedule : Type := {
  id : Z;
  class_id : Z;
  class_name : string;
  teacher_id : Z;
  teacher_name : string;
  subject_id : Z;
  subject_name : string;
  day_of_week : string;
  start_time : string;
  end_time : string;
  academic_year : string;
  semester : string
}.

Record TimeSlot : Type := {
  slot_start_time : string;
  slot_end_time : string;
  slot_label : string
}.

Record Day : Type := { value : string; label : string }.

Definition TIME_SLOTS : list TimeSlot :=
  [ {| slot_start_time := "08:00"; slot_end_time := "10:00"; slot_label := "08h00 - 10h00" |};
    {| slot_start_time := "10:15"; slot_end_time := "12:15"; slot_label := "10h15 - 12h15" |};
    {| slot_start_time := "14:00"; slot_end_time := "16:00"; slot_label := "14h00 - 16h00" |};
    {| slot_start_time := "16:15"; slot_end_time := "18:15"; slot_label := "16h15 - 18h15" |} ].

Definition DAYS_OF_WEEK : list Day :=
  [ {| value := "MONDAY"; label := "Lundi" |};
    {| value := "TUESDAY"; label := "Mardi" |};
    {| value := "WEDNESDAY"; label := "Mercredi" |};
    {| value := "THURSDAY"; label := "Jeudi" |};
    {| value := "FRIDAY"; label := "Vendredi" |};
    {| value := "SATURDAY"; label := "Samedi" |} ].

(** ** [formatWeeklyGrid] *)

(** A cell holds [null] or one schedule. *)
Definition Cell : Type := option Schedule.
Definition Row : Type := object string Cell.
Definition Grid : Type := object string Row.

(** The first [forEach]:
    [grid[day.value] = {}; TIME_SLOTS.forEach(slot => grid[day.value][slot.start_time] = null)] *)
Definition emptyRow : Row :=
  fold_left (fun row slot => setOwn String.eqb row (slot_start_time slot) None)
            TIME_SLOTS [].

Definition emptyGrid : Grid :=
  fold_left (fun grid day => setOwn String.eqb grid (value day) emptyRow)
            DAYS_OF_WEEK [].

(** The body of the second [forEach]:
<<
    if (grid[schedule.day_of_week]
        && grid[schedule.day_of_week][schedule.start_time] !== undefined) {
      grid[schedule.day_of_week][schedule.start_time] = schedule;
    }
>>
    Both reads are [[Get]]s, which go on to the prototype when the object
    has no own property of that name.  A row is an object, hence truthy;
    [null] and a schedule both differ from [undefined], and so does every
    property of [%Object.prototype%].  The write to a name which the row
    inherits as a data property creates an own property of the row.

    The result is [None] where the evaluation leaves the grid: when
    [grid[schedule.day_of_week]] is a property of [%Object.prototype%],
    the second read and the write are on a built-in object, and a write to
    [__proto__] runs the setter, which replaces the prototype of the row.
    What follows then depends on objects that are not part of the grid. *)
Definition place (grid : Grid) (schedule : Schedule) : option Grid :=
  match Get grid (day_of_week schedule) with
  | Undefined => Some grid
  | Inherited => None
  | Own row =>
      let write :=
        setOwn String.eqb grid (day_of_week schedule)
               (setOwn String.eqb row (start_time schedule) (Some schedule)) in
      match Get row (start_time schedule) with
      | Undefined => Some grid
      | Own _ => Some write
      | Inherited =>
          if String.eqb (start_time schedule) "__proto__" then None
          else Some write
      end
  end.

Fixpoint populate (grid : Grid) (schedules : list Schedule) : option Grid :=
  match schedules with
  | [] => Some grid
  | schedule :: rest =>
      match place grid schedule with
      | Some grid' => populate grid' rest
      | None => None
      end
  end.

Definition formatWeeklyGrid (schedules : list Schedule) : option Grid :=
  populate emptyGrid schedules.

(** How the method ends.  Of the cases in which [place] answers [None], one
    is the same on every host: when [grid[schedule.day_of_week]] is a
    built-in function and [schedule.start_time] is [name] or [length], the
    first read finds a function, which is truthy, the second a string or a
    number, which is not [undefined], and the write, to a property that is
    not writable, throws a [TypeError]: the method returns no grid.  In the
    other cases the evaluation goes on outside the grid, and how it ends is
    not part of this model. *)
Inductive Completion : Type :=
| Returns (grid : Grid)
| ThrowsTypeError
| Outside.

Definition refused (schedule : Schedule) : bool :=
  holdsFunction (day_of_week schedule) && notWritable (start_time schedule).

Fixpoint complete (grid : Grid) (schedules : list Schedule) : Completion :=
  match schedules with
  | [] => Returns grid
  | schedule :: rest =>
      match place grid schedule with
      | Some grid' => complete grid' rest
      | None => if refused schedule then ThrowsTypeError else Outside
      end
  end.

Definition formatWeeklyGrid_completion (schedules : list Schedule)
  : Completion :=
  complete emptyGrid schedules.

(** ** [validateScheduleData] *)

(** [CreateScheduleRequest | UpdateScheduleRequest]: every field is there
    or not (['class_id' in scheduleData]), and one that is there holds a
    value of its type.  What reaches the validator is what a form holds,
    so the three references are numbers of any kind. *)
Module UpdateScheduleRequest.
Record t : Type := {
  class_id : option number;
  teacher_id : option number;
  subject_id : option number;
  day_of_week : option string;
  start_time : option string;
  end_time : option string;
  academic_year : option string;
  semester : option string
}.

(** [{}] *)
Definition empty : t :=
  {| class_id := None; teacher_id := None; subject_id := None;
     day_of_week := None; start_time := None; end_time := None;
     academic_year := None; semester := None |}.
End UpdateScheduleRequest.

Module Validation.
Record t : Type := { isValid : bool; errors : list string }.
End Validation.

Definition push (errors : list string) (message : string) : list string :=
  errors ++ [message].

(** [!x || x <= 0] *)
Definition missing (x : number) : bool :=
  negb (truthy_number x) || (x <=? 0)%float.

(** [DAYS_OF_WEEK.find(d => d.value === day)] *)
Definition findDay (day : string) : option Day :=
  find (fun d => String.eqb (value d) day) DAYS_OF_WEEK.

(** [['S1', 'S2'].includes(semester)] *)
Definition isSemester (semester : string) : bool :=
  existsb (String.eqb semester) ["S1"; "S2"].

Definition classMessage : string := "La classe est obligatoire".
Definition teacherMessage : string := "L'enseignant est obligatoire".
Definition subjectMessage : string := "La matière est obligatoire".
Definition dayMessage : string := "Jour de la semaine invalide".
Definition timeMessage : string :=
  "L'heure de fin doit être après l'heure de début".
Definition yearMessage : string :=
  "Format d'année académique invalide (YYYY-YYYY)".
Definition semesterMessage : string := "Semestre invalide (S1 ou S2)".

Definition validateScheduleData (scheduleData : UpdateScheduleRequest.t)
  : Validation.t :=
  let errors : list string := [] in
  let errors :=
    match UpdateScheduleRequest.class_id scheduleData with
    | Some class_id => if missing class_id then push errors classMessage else errors
    | None => errors
    end in
  let errors :=
    match UpdateScheduleRequest.teacher_id scheduleData with
    | Some teacher_id => if missing teacher_id then push errors teacherMessage else errors
    | None => errors
    end in
  let errors :=
    match UpdateScheduleRequest.subject_id scheduleData with
    | Some subject_id => if missing subject_id then push errors subjectMessage else errors
    | None => errors
    end in
  let errors :=
    match UpdateScheduleRequest.day_of_week scheduleData with
    | Some day =>
        match findDay day with
        | None => push errors dayMessage
        | Some _ => errors
        end
    | None => errors
    end in
  let errors :=
    match UpdateScheduleRequest.start_time scheduleData,
          UpdateScheduleRequest.end_time scheduleData with
    | Some start_time, Some end_time =>
        if truthy_string start_time && truthy_string end_time then
          if string_ge start_time end_time then push errors timeMessage
          else errors
        else errors
    | _, _ => errors
    end in
  let errors :=
    match UpdateScheduleRequest.academic_year scheduleData with
    | Some academic_year =>
        if truthy_string academic_year then
          if negb (yearPattern_test academic_year) then push errors yearMessage
          else errors
        else errors
    | None => errors
    end in
  let errors :=
    match UpdateScheduleRequest.semester scheduleData with
    | Some semester =>
        if truthy_string semester then
          if negb (isSemester semester) then push errors semesterMessage
          else errors
        else errors
    | None => errors
    end in
  {| Validation.isValid := Nat.eqb (List.length errors) 0%nat;
     Validation.errors := errors |}.

(** ** [calculateDuration] and [getScheduleStatistics] *)

(** [{name, hours}], the value of [teacherHours] and of [classHours] *)
Record Hours : Type := { name : string; hours : number }.

Module TeacherWorkload.
Record t : Type := { teacher_name : string; hours_per_week : number }.
End TeacherWorkload.

Module ClassCoverage.
Record t : Type := { class_name : string; hours_per_week : number }.
End ClassCoverage.

Module Statistics.
Record t : Type := {
  total_schedules : Z;
  schedules_by_day : object string Z;
  teacher_workload : list TeacherWorkload.t;
  class_coverage : list ClassCoverage.t
}.
End Statistics.

Section Host.
Variable host : Host.

(** [new Date(`2000-01-01T${time}:00`).getTime()] *)
Definition getTime (time : string) : option Z :=
  Date_parse host ("2000-01-01T" ++ time ++ ":00")%string.

Definition calculateDuration (startTime endTime : string) : number :=
  let start := getTime startTime in
  let end_ := getTime endTime in
  (time_difference end_ start / Number_of_Z (1000 * 60 * 60))%float.

(** [if (!hours[key]) { hours[key] = {name, hours: 0}; }
     hours[key].hours += duration;]
    An entry is an object, hence truthy: [!hours[key]] holds exactly
    when [hours] has no property [key]. *)
Definition accumulate (hoursOf : object Z Hours) (key : Z) (name_ : string)
           (duration : number) : object Z Hours :=
  let hoursOf :=
    match getOwn Z.eqb hoursOf key with
    | None => setOwn Z.eqb hoursOf key {| name := name_; hours := 0%float |}
    | Some _ => hoursOf
    end in
  match getOwn Z.eqb hoursOf key with
  | Some entry =>
      setOwn Z.eqb hoursOf key
             {| name := name entry; hours := (hours entry + duration)%float |}
  | None => hoursOf
  end.

(** The body of [schedules.forEach], on the pair
    [(teacherHours, classHours)] *)
Definition tally (acc : object Z Hours * object Z Hours) (schedule : Schedule)
  : object Z Hours * object Z Hours :=
  let duration := calculateDuration (start_time schedule) (end_time schedule) in
  (accumulate (fst acc) (teacher_id schedule) (teacher_name schedule) duration,
   accumulate (snd acc) (class_id schedule) (class_name schedule) duration).

Definition countDay (schedules : list Schedule) (day : Day) : Z :=
  Z.of_nat (List.length (filter (fun s => String.eqb (day_of_week s) (value day))
                           schedules)).

(** The function [getScheduleStatistics] maps over the schedules
    fetched. *)
Definition getScheduleStatistics (schedules : list Schedule) : Statistics.t :=
  let schedules_by_day :=
    fold_left (fun byDay day =>
                 setOwn String.eqb byDay (value day) (countDay schedules day))
              DAYS_OF_WEEK [] in
  let '(teacherHours, classHours) := fold_left tally schedules ([], []) in
  {| Statistics.total_schedules := Z.of_nat (List.length schedules);
     Statistics.schedules_by_day := schedules_by_day;
     Statistics.teacher_workload :=
       map (fun t => {| TeacherWorkload.teacher_name := name t;
                        TeacherWorkload.hours_per_week := hours t |})
           (Object_values teacherHours);
     Statistics.class_coverage :=
       map (fun c => {| ClassCoverage.class_name := name c;
                        ClassCoverage.hours_per_week := hours c |})
           (Object_values classHours) |}.
End Host.

(** ** The requests

    A method that answers an observable of [HttpClient] is the request
    which that observable makes when it is subscribed to: its verb, its
    URL, its headers and its body.  [environment.apiUrl] and the content of
    [localStorage] are given; an identifier in a URL is an integer, except
    the one that [checkConflicts] tests before it writes it. *)
Module HttpRequest.
Record t : Type := {
  method : string;
  url : string;
  headers : HttpHeaders;
  body : option UpdateScheduleRequest.t
}.
End HttpRequest.

(** [HttpErrorResponse], of which [handleError] reads the body and the
    message *)
Module HttpErrorResponse.
Record t : Type := { error : any; message : string }.
End HttpErrorResponse.

Definition TOKEN_KEY : string := "school_auth_token".

Definition getToken (localStorage : Storage) : option string :=
  getItem localStorage TOKEN_KEY.

Definition getAuthHeaders (localStorage : Storage) : HttpHeaders :=
  let token := getToken localStorage in
  [("Authorization", ("Bearer " ++ template_of token)%string)].

Section Api.
Variable environment_apiUrl : string.
Variable localStorage : Storage.

Definition apiUrl : string := (environment_apiUrl ++ "/schedules")%string.

Definition getAllSchedules : HttpRequest.t :=
  {| HttpRequest.method := "GET";
     HttpRequest.url := apiUrl;
     HttpRequest.headers := getAuthHeaders localStorage;
     HttpRequest.body := None |}.

Definition getSchedule (scheduleId : Z) : HttpRequest.t :=
  {| HttpRequest.method := "GET";
     HttpRequest.url := (apiUrl ++ "/" ++ Number_toString scheduleId)%string;
     HttpRequest.headers := getAuthHeaders localStorage;
     HttpRequest.body := None |}.

Definition createSchedule (scheduleData : UpdateScheduleRequest.t)
  : HttpRequest.t :=
  {| HttpRequest.method := "POST";
     HttpRequest.url := apiUrl;
     HttpRequest.headers := getAuthHeaders localStorage;
     HttpRequest.body := Some scheduleData |}.

Definition updateSchedule (scheduleId : Z)
           (scheduleData : UpdateScheduleRequest.t) : HttpRequest.t :=
  {| HttpRequest.method := "PUT";
     HttpRequest.url := (apiUrl ++ "/" ++ Number_toString scheduleId)%string;
     HttpRequest.headers := getAuthHeaders localStorage;
     HttpRequest.body := Some scheduleData |}.

Definition deleteSchedule (scheduleId : Z) : HttpRequest.t :=
  {| HttpRequest.method := "DELETE";
     HttpRequest.url := (apiUrl ++ "/" ++ Number_toString scheduleId)%string;
     HttpRequest.headers := getAuthHeaders localStorage;
     HttpRequest.body := None |}.

(** [if (semester) ...; if (academicYear) ...]: a filter that is not given
    and one that is the empty string are both left out. *)
Definition getClassSchedule (classId : Z) (semester academicYear : option string)
  : HttpRequest.t :=
  let url := (apiUrl ++ "/class/" ++ Number_toString classId)%string in
  let params : URLSearchParams := [] in
  let params :=
    match semester with
    | Some semester =>
        if truthy_string semester
        then URLSearchParams_append params "semester" semester
        else params
    | None => params
    end in
  let params :=
    match academicYear with
    | Some academicYear =>
        if truthy_string academicYear
        then URLSearchParams_append params "academic_year" academicYear
        else params
    | None => params
    end in
  let url :=
    if truthy_string (URLSearchParams_toString params)
    then (url ++ "?" ++ URLSearchParams_toString params)%string
    else url in
  {| HttpRequest.method := "GET";
     HttpRequest.url := url;
     HttpRequest.headers := getAuthHeaders localStorage;
     HttpRequest.body := None |}.

Definition getTeacherSchedule (teacherId : Z)
           (semester academicYear : option string) : HttpRequest.t :=
  let url := (apiUrl ++ "/teacher/" ++ Number_toString teacherId)%string in
  let params : URLSearchParams := [] in
  let params :=
    match semester with
    | Some semester =>
        if truthy_string semester
        then URLSearchParams_append params "semester" semester
        else params
    | None => params
    end in
  let params :=
    match academicYear with
    | Some academicYear =>
        if truthy_string academicYear
        then URLSearchParams_append params "academic_year" academicYear
        else params
    | None => params
    end in
  let url :=
    if truthy_string (URLSearchParams_toString params)
    then (url ++ "?" ++ URLSearchParams_toString params)%string
    else url in
  {| HttpRequest.method := "GET";
     HttpRequest.url := url;
     HttpRequest.headers := getAuthHeaders localStorage;
     HttpRequest.body := None |}.

(** [excludeId ? ... : ...].  The test is on the number itself, so
    [excludeId] is a number of any kind here: [undefined] is falsy, and so
    are [0], [-0] and [NaN].  What [Number::toString] writes for a number
    that is not an integer is given. *)
Variable Number_toString_other : number -> string.

Definition checkConflicts (scheduleData : UpdateScheduleRequest.t)
           (excludeId : option number) : HttpRequest.t :=
  let url :=
    match excludeId with
    | Some excludeId =>
        if truthy_number excludeId
        then (apiUrl ++ "/check-conflicts/"
                ++ Number_toString_number Number_toString_other excludeId)%string
        else (apiUrl ++ "/check-conflicts")%string
    | None => (apiUrl ++ "/check-conflicts")%string
    end in
  {| HttpRequest.method := "POST";
     HttpRequest.url := url;
     HttpRequest.headers := getAuthHeaders localStorage;
     HttpRequest.body := Some scheduleData |}.
End Api.

(** [getTimeSlots] and [getDaysOfWeek]: a new array of the same entries *)
Definition getTimeSlots : list TimeSlot := TIME_SLOTS.
Definition getDaysOfWeek : list Day := DAYS_OF_WEEK.

(** [handleError]: the message of the [Error] with which the observable
    fails.  (What it writes to the console is left out.) *)
Definition handleError (error : HttpErrorResponse.t) : any :=
  let errorMessage := V_string "Une erreur est survenue" in
  let body := HttpErrorResponse.error error in
  if ToBoolean (optional_member body "error") then optional_member body "error"
  else if ToBoolean (optional_member body "message")
       then optional_member body "message"
  else if truthy_string (HttpErrorResponse.message error)
       then V_string (HttpErrorResponse.message error)
  else errorMessage.

End ScheduleService.

(* ================================================================= *)
(** * The vocabulary of the properties *)

Module Grid.
Import JS ScheduleService.

Definition days : list string := map value DAYS_OF_WEEK.
Definition slotStarts : list string := map slot_start_time TIME_SLOTS.

(** The cell of a day and a name, when the grid has that day and the row
    of the day has a property of its own by that name. *)
Definition cellOf (grid : Grid) (day name : string) : option Cell :=
  match getOwn String.eqb grid day with
  | Some row => getOwn String.eqb row name
  | None => None
  end.

(** The days of a grid, each with the property names of its row. *)
Definition shape (grid : Grid) : list (string * list string) :=
  map (fun entry => (fst entry, Object_keys (snd entry))) grid.

Definition catalogShape : list (string * list string) :=
  map (fun day => (day, slotStarts)) days.

(** A schedule whose day and start time name nothing of
    [%Object.prototype%]. *)
Definition plain (schedule : Schedule) : Prop :=
  inherited (day_of_week schedule) = false
  /\ inherited (start_time schedule) = false.

(** A schedule on which [place] stays within the grid. *)
Definition modelled (schedule : Schedule) : Prop :=
  inherited (day_of_week schedule) = false
  /\ start_time schedule <> "__proto__".

(** Whether [place] writes the schedule into the grid. *)
Definition accepts (grid : Grid) (schedule : Schedule) : bool :=
  match Get grid (day_of_week schedule) with
  | Own row =>
      match Get row (start_time schedule) with
      | Undefined => false
      | _ => true
      end
  | _ => false
  end.

Definition at_cell (day name : string) (schedule : Schedule) : bool :=
  String.eqb (day_of_week schedule) day && String.eqb (start_time schedule) name.

Definition lesson (day start : string) : Schedule :=
  {| id := 1; class_id := 1; class_name := "6e A";
     teacher_id := 7; teacher_name := "Dupont";
     subject_id := 1; subject_name := "Maths";
     day_of_week := day; start_time := start; end_time := "10:00";
     academic_year := "2024-2025"; semester := "S1" |}.

(** A schedule on Monday whose start time is no slot of the catalog. *)
Definition stray : Schedule := lesson "MONDAY" "toString".
End Grid.

Module Rules.
Import JS ScheduleService.

(** The seven checks of [validateScheduleData], in the order in which the
    method makes them. *)
Inductive Rule : Type :=
| ClassRule | TeacherRule | SubjectRule | DayRule | TimeRule | YearRule
| SemesterRule.

Definition declared : list Rule :=
  [ClassRule; TeacherRule; SubjectRule; DayRule; TimeRule; YearRule; SemesterRule].

Definition message (rule : Rule) : string :=
  match rule with
  | ClassRule => classMessage
  | TeacherRule => teacherMessage
  | SubjectRule => subjectMessage
  | DayRule => dayMessage
  | TimeRule => timeMessage
  | YearRule => yearMessage
  | SemesterRule => semesterMessage
  end.

(** The condition under which the method pushes the message of a rule. *)
Definition violated (rule : Rule) (data : UpdateScheduleRequest.t) : bool :=
  match rule with
  | ClassRule =>
      match UpdateScheduleRequest.class_id data with
      | Some x => missing x
      | None => false
      end
  | TeacherRule =>
      match UpdateScheduleRequest.teacher_id data with
      | Some x => missing x
      | None => false
      end
  | SubjectRule =>
      match UpdateScheduleRequest.subject_id data with
      | Some x => missing x
      | None => false
      end
  | DayRule =>
      match UpdateScheduleRequest.day_of_week data with
      | Some day => negb (existsb (String.eqb day) (map value DAYS_OF_WEEK))
      | None => false
      end
  | TimeRule =>
      match UpdateScheduleRequest.start_time data,
            UpdateScheduleRequest.end_time data with
      | Some s, Some e =>
          truthy_string s && truthy_string e && string_ge s e
      | _, _ => false
      end
  | YearRule =>
      match UpdateScheduleRequest.academic_year data with
      | Some y => truthy_string y && negb (yearPattern_test y)
      | None => false
      end
  | SemesterRule =>
      match UpdateScheduleRequest.semester data with
      | Some s => truthy_string s && negb (isSemester s)
      | None => false
      end
  end.

(** A number that is an integer above zero. *)
Definition isPositiveInteger (x : number) : bool :=
  match Number_value x with
  | Some q => (0 <? Qnum q) && (Qnum q mod Z.pos (Qden q) =? 0)
  | None => false
  end.

(** A request that holds a class reference and nothing else. *)
Definition classOnly (x : number) : UpdateScheduleRequest.t :=
  {| UpdateScheduleRequest.class_id := Some x;
     UpdateScheduleRequest.teacher_id := None;
     UpdateScheduleRequest.subject_id := None;
     UpdateScheduleRequest.day_of_week := None;
     UpdateScheduleRequest.start_time := None;
     UpdateScheduleRequest.end_time := None;
     UpdateScheduleRequest.academic_year := None;
     UpdateScheduleRequest.semester := None |}.

(** A request that holds the two times and nothing else. *)
Definition timesOnly (start_ end_ : string) : UpdateScheduleRequest.t :=
  {| UpdateScheduleRequest.class_id := None;
     UpdateScheduleRequest.teacher_id := None;
     UpdateScheduleRequest.subject_id := None;
     UpdateScheduleRequest.day_of_week := None;
     UpdateScheduleRequest.start_time := Some start_;
     UpdateScheduleRequest.end_time := Some end_;
     UpdateScheduleRequest.academic_year := None;
     UpdateScheduleRequest.semester := None |}.
End Rules.

Module Clock.
Import JS ScheduleService.

Definition digitChar (n : Z) : ascii := ascii_of_N (Z.to_N (48 + n)).

(** The time [h:m] of a day, in two digits each. *)
Definition HHMM (h m : Z) : string :=
  String (digitChar (h / 10)) (String (digitChar (h mod 10)) (String ":"
    (String (digitChar (m / 10)) (String (digitChar (m mod 10)) "")))).

Definition minutes (h m : Z) : Z := h * 60 + m.

Definition onTheClock (h m : Z) : Prop := 0 <= h <= 23 /\ 0 <= m <= 59.

(** The quotient, in binary64, of a number of minutes in milliseconds by
    the milliseconds of an hour. *)
Definition hoursOfMinutes (d : Z) : number :=
  (Number_of_Z (d * 60000) / Number_of_Z (1000 * 60 * 60))%float.

(** The hours are within 2^-53 of the minutes over sixty, relatively, and
    are that quotient when the minutes are a multiple of fifteen. *)
Definition rounds (d : Z) (x : number) : bool :=
  match Number_value x with
  | Some q =>
      Qle_bool (Qabs (q - Qmake d 60)) (Qmake d 60 * Qmake 1 (2 ^ 53))
      && ((negb (d mod 15 =? 0)) || Qeq_bool q (Qmake d 60))
  | None => false
  end.

Definition range (n : nat) : list Z := map Z.of_nat (seq 0 n).

(** A host in the time zone of Douala, whose [Date.parse] knows the
    date-time format only. *)
Definition douala : Host :=
  {| LocalTZA := 3600000; Date_parse_other := fun _ => None |}.
End Clock.

Module Workload.
Import JS ScheduleService.

(** The identifiers of a list in the order in which each first appears. *)
Fixpoint firstAppearance (ids : list Z) : list Z :=
  match ids with
  | [] => []
  | id :: rest => id :: filter (fun k => negb (k =? id)) (firstAppearance rest)
  end.

(** The sum of numbers, from zero, in the order of the list. *)
Definition sum (xs : list number) : number :=
  fold_left (fun total x => (total + x)%float) xs 0%float.

Section Of.
Variable host : Host.
Variables (key : Schedule -> Z) (label : Schedule -> string).
Variable schedules : list Schedule.

Definition recordsOf (id : Z) : list Schedule :=
  filter (fun s => key s =? id) schedules.

(** The name on the first record of an identifier. *)
Definition nameOf (id : Z) : string :=
  match recordsOf id with
  | s :: _ => label s
  | [] => ""
  end.

(** The sum of the durations of the records of an identifier. *)
Definition hoursOf (id : Z) : number :=
  sum (map (fun s => calculateDuration host (start_time s) (end_time s))
           (recordsOf id)).

Definition entryOf (id : Z) : Hours :=
  {| name := nameOf id; hours := hoursOf id |}.

(** [teacherHours], or [classHours], after the [forEach] *)
Definition hoursBy : object Z Hours :=
  fold_left (fun acc s =>
               accumulate acc (key s) (label s)
                 (calculateDuration host (start_time s) (end_time s)))
            schedules [].
End Of.

Definition teacherEntry (host : Host) (schedules : list Schedule) (id : Z)
  : TeacherWorkload.t :=
  {| TeacherWorkload.teacher_name := nameOf teacher_id teacher_name schedules id;
     TeacherWorkload.hours_per_week := hoursOf host teacher_id schedules id |}.

Definition classEntry (host : Host) (schedules : list Schedule) (id : Z)
  : ClassCoverage.t :=
  {| ClassCoverage.class_name := nameOf class_id class_name schedules id;
     ClassCoverage.hours_per_week := hoursOf host class_id schedules id |}.

Definition course (teacher : Z) (teacher_name_ : string) (class_ : Z)
           (start_ end_ : string) : Schedule :=
  {| id := 1; class_id := class_; class_name := "6e A";
     teacher_id := teacher; teacher_name := teacher_name_;
     subject_id := 1; subject_name := "Maths";
     day_of_week := "MONDAY"; start_time := start_; end_time := end_;
     academic_year := "2024-2025"; semester := "S1" |}.
End Workload.

Module Cells.
Import JS ScheduleService Grid.

(** The last schedule of a list at a cell. *)
Definition lastAt (day name : string) (schedules : list Schedule)
  : option Schedule :=
  find (at_cell day name) (rev schedules).

Definition inCatalog (day name : string) : bool :=
  existsb (String.eqb day) days && existsb (String.eqb name) slotStarts.

(** One grid laid over another: a cell of the upper grid that holds a
    schedule hides the cell below. *)
Definition over (upper lower : option Cell) : option Cell :=
  match upper with
  | Some (Some schedule) => Some (Some schedule)
  | _ => lower
  end.
End Cells.

Module Counts.
Import JS ScheduleService Grid.

Definition onDay (day : string) (schedules : list Schedule) : Z :=
  Z.of_nat (List.length
              (filter (fun s => String.eqb (day_of_week s) day) schedules)).

(** The schedules whose day is no day of the catalog. *)
Definition offCatalog (schedules : list Schedule) : Z :=
  Z.of_nat (List.length
              (filter (fun s => negb (existsb (String.eqb (day_of_week s)) days))
                      schedules)).

Definition total (counts : object string Z) : Z :=
  fold_right Z.add 0 (map snd counts).
End Counts.

Module Years.
Import JS ScheduleService.

(** A year in four digits. *)
Definition pad4 (y : Z) : string :=
  String (Clock.digitChar (y / 1000))
    (String (Clock.digitChar (y / 100 mod 10))
       (String (Clock.digitChar (y / 10 mod 10))
          (String (Clock.digitChar (y mod 10)) ""))).

Definition academicYear (first second : Z) : string :=
  (pad4 first ++ "-" ++ pad4 second)%string.
End Years.

Module Query.
Import JS ScheduleService.

(** A character that the serializer of a query writes for a name or a
    value. *)
Definition written (c : ascii) : bool :=
  isAlphanumeric c || existsb (Ascii.eqb c) ["*"; "-"; "."; "_"; "+"; "%"]%char.

(** A filter as the methods take it: one that is the empty string counts
    as not given. *)
Definition given (filter : option string) : option string :=
  match filter with
  | Some s => if truthy_string s then Some s else None
  | None => None
  end.

(** The query of the filters given. *)
Definition query (semester academicYear : option string) : string :=
  match given semester, given academicYear with
  | None, None => ""
  | Some s, None => "?semester=" ++ urlencode s
  | None, Some y => "?academic_year=" ++ urlencode y
  | Some s, Some y =>
      "?semester=" ++ urlencode s ++ "&academic_year=" ++ urlencode y
  end%string.
End Query.

Module Backwards.
Import JS ScheduleService Clock.
(** The differences in minutes of two times of the clock. *)
Definition differences : list Z := map (fun k => k - 1439) (range 2879).

(** The hours of a difference have its sign, and the hours of a difference
    below zero are the opposite of the hours of the opposite difference. *)
Definition signed (d : Z) : bool :=
  let x := hoursOfMinutes d in
  if d =? 0 then PrimFloat.Leibniz.eqb x 0%float
  else if d <? 0
       then (x <? 0)%float && PrimFloat.Leibniz.eqb x (- hoursOfMinutes (- d))%float
       else (0 <? x)%float.
End Backwards.

Module Occurrences.
Import JS ScheduleService.
(** How often a character occurs in a string. *)
Definition occurrences (c : ascii) (s : string) : nat :=
  List.length (filter (Ascii.eqb c) (list_ascii_of_string s)).

(** How many of some filters are given. *)
Definition count (filters : list (option string)) : nat :=
  List.length (filter (fun f => match Query.given f with Some _ => true | None => false end)
                      filters).
End Occurrences.

(* ================================================================= *)
(** * Own properties *)

Section ObjectFacts.
Import JS.
Context {K V : Type} (eqb : K -> K -> bool).
Hypothesis eqb_eq : forall a b, eqb a b = true <-> a = b.

Lemma eqb_same (a : K) : eqb a a = true.
Proof. now apply eqb_eq. Qed.

Lemma eqb_differ (a b : K) : a <> b -> eqb a b = false.
Proof.
  intros Hab. destruct (eqb a b) eqn:E; [|reflexivity].
  now apply eqb_eq in E.
Qed.

Lemma getOwn_setOwn_same (o : object K V) k v :
  getOwn eqb (setOwn eqb o k v) k = Some v.
Proof.
  induction o as [|[k' v'] o IH]; simpl.
  - now rewrite eqb_same.
  - destruct (eqb k' k) eqn:E; simpl; rewrite E; [reflexivity | exact IH].
Qed.

Lemma getOwn_setOwn_other (o : object K V) k k' v :
  k <> k' -> getOwn eqb (setOwn eqb o k v) k' = getOwn eqb o k'.
Proof.
  intros Hk. induction o as [|[k0 v0] o IH]; simpl.
  - now rewrite eqb_differ.
  - destruct (eqb k0 k) eqn:E; simpl.
    + apply eqb_eq in E; subst k0. now rewrite eqb_differ.
    + now rewrite IH.
Qed.

Lemma getOwn_None (o : object K V) k :
  getOwn eqb o k = None <-> ~ In k (ownKeys o).
Proof.
  induction o as [|[k' v'] o IH]; simpl.
  - tauto.
  - destruct (eqb k' k) eqn:E.
    + apply eqb_eq in E. split; [discriminate | tauto].
    + rewrite IH. split; [|tauto].
      intros Hn [Heq|Hin]; [|tauto].
      subst k'. now rewrite eqb_same in E.
Qed.

Lemma getOwn_Some_In (o : object K V) k v :
  getOwn eqb o k = Some v -> In k (ownKeys o).
Proof.
  intros Hg. destruct (in_dec (fun a b => Bool.reflect_dec _ _ (iff_reflect _ _ (iff_sym (eqb_eq a b)))) k (ownKeys o)) as [Hin|Hn];
    [exact Hin|].
  apply getOwn_None in Hn. congruence.
Qed.

Lemma ownKeys_setOwn_present (o : object K V) k v :
  getOwn eqb o k <> None -> ownKeys (setOwn eqb o k v) = ownKeys o.
Proof.
  induction o as [|[k' v'] o IH]; simpl; [congruence|].
  destruct (eqb k' k) eqn:E; simpl; [reflexivity|].
  intros Hg. now rewrite IH.
Qed.

Lemma ownKeys_setOwn_absent (o : object K V) k v :
  getOwn eqb o k = None -> ownKeys (setOwn eqb o k v) = ownKeys o ++ [k].
Proof.
  induction o as [|[k' v'] o IH]; simpl; [reflexivity|].
  destruct (eqb k' k) eqn:E; simpl; [discriminate|].
  intros Hg. now rewrite IH.
Qed.
End ObjectFacts.

(* ================================================================= *)
(** * The weekly grid *)

Section GridFacts.
Import JS ScheduleService Grid.

Lemma Get_Own {V : Type} (o : object string V) name v :
  getOwn String.eqb o name = Some v -> Get o name = Own v.
Proof. unfold Get. now intros ->. Qed.

Lemma Get_not_inherited {V : Type} (o : object string V) name :
  inherited name = false -> Get o name <> Inherited.
Proof.
  unfold Get. intros ->. destruct (getOwn String.eqb o name); discriminate.
Qed.

(** Writing one cell changes that cell and no other. *)
Lemma cellOf_write (grid : Grid) day row name v day' name' :
  getOwn String.eqb grid day = Some row ->
  cellOf (setOwn String.eqb grid day (setOwn String.eqb row name v)) day' name'
  = if String.eqb day day' && String.eqb name name' then Some v
    else cellOf grid day' name'.
Proof.
  intros Hrow. unfold cellOf.
  destruct (String.eqb day day') eqn:Ed; simpl.
  - apply String.eqb_eq in Ed; subst day'.
    rewrite (getOwn_setOwn_same String.eqb String.eqb_eq), Hrow.
    destruct (String.eqb name name') eqn:En.
    + apply String.eqb_eq in En; subst name'.
      apply (getOwn_setOwn_same String.eqb String.eqb_eq).
    + apply String.eqb_neq in En.
      now apply (getOwn_setOwn_other String.eqb String.eqb_eq).
  - apply String.eqb_neq in Ed.
    now rewrite (getOwn_setOwn_other String.eqb String.eqb_eq).
Qed.

(** On a modelled schedule [place] answers a grid: the one it was given
    with the schedule in its cell, if it accepts the schedule, and the
    one it was given otherwise. *)
Lemma place_modelled (grid : Grid) (schedule : Schedule) :
  modelled schedule ->
  exists grid',
    place grid schedule = Some grid'
    /\ forall day name,
        cellOf grid' day name
        = if accepts grid schedule && at_cell day name schedule
          then Some (Some schedule) else cellOf grid day name.
Proof.
  intros [Hday Hstart]. unfold place, accepts, at_cell.
  pose proof (Get_not_inherited grid _ Hday) as Hni.
  destruct (Get grid (day_of_week schedule)) as [row| |] eqn:Eg;
    [|congruence|eexists; split; [reflexivity|intros; reflexivity]].
  assert (Hrow : getOwn String.eqb grid (day_of_week schedule) = Some row).
  { unfold Get in Eg.
    destruct (getOwn String.eqb grid (day_of_week schedule));
      [congruence | destruct (inherited _); discriminate]. }
  apply String.eqb_neq in Hstart.
  destruct (Get row (start_time schedule)) as [c| |]; rewrite ?Hstart;
    (eexists; split; [reflexivity|]); intros day name; simpl;
    try reflexivity; apply (cellOf_write _ _ _ _ _ _ Hrow).
Qed.

Lemma accepts_cell (grid : Grid) (schedule : Schedule) :
  cellOf grid (day_of_week schedule) (start_time schedule) <> None ->
  accepts grid schedule = true.
Proof.
  unfold cellOf, accepts. intros Hc.
  destruct (getOwn String.eqb grid (day_of_week schedule)) as [row|] eqn:Eg;
    [|congruence].
  rewrite (Get_Own _ _ Eg).
  destruct (getOwn String.eqb row (start_time schedule)) as [c|] eqn:Er;
    [|congruence].
  now rewrite (Get_Own _ _ Er).
Qed.

Lemma populate_app (grid : Grid) (l1 l2 : list Schedule) :
  populate grid (l1 ++ l2)
  = match populate grid l1 with
    | Some grid' => populate grid' l2
    | None => None
    end.
Proof.
  revert grid. induction l1 as [|s l1 IH]; intros grid; simpl; [reflexivity|].
  destruct (place grid s); [apply IH | reflexivity].
Qed.

(** On modelled schedules [populate] answers a grid; a cell stays a cell,
    and keeps what it holds when no schedule is at that cell. *)
Lemma populate_modelled (schedules : list Schedule) :
  Forall modelled schedules ->
  forall grid, exists grid',
    populate grid schedules = Some grid'
    /\ forall day name,
        cellOf grid day name <> None ->
        cellOf grid' day name <> None
        /\ (forallb (fun s => negb (at_cell day name s)) schedules = true ->
            cellOf grid' day name = cellOf grid day name).
Proof.
  induction 1 as [|s l Hs Hl IH]; intros grid; simpl.
  - exists grid. split; [reflexivity|]. intros; split; auto.
  - destruct (place_modelled grid Hs) as (g1 & Hp & Hcell). rewrite Hp.
    destruct (IH g1) as (g2 & Hpop & Hkeep). exists g2. split; [exact Hpop|].
    intros day name Hc.
    assert (Hc1 : cellOf g1 day name <> None).
    { rewrite Hcell.
      destruct (accepts grid s && at_cell day name s); [discriminate | exact Hc]. }
    destruct (Hkeep day name Hc1) as [Hex Hsame]. split; [exact Hex|].
    intros Hall. apply andb_prop in Hall as [Hhere Hrest].
    rewrite (Hsame Hrest), Hcell.
    apply negb_true_iff in Hhere. rewrite Hhere.
    now rewrite andb_false_r.
Qed.

Lemma emptyGrid_cell day name :
  In day days -> In name slotStarts -> cellOf emptyGrid day name = Some None.
Proof.
  unfold days, slotStarts; simpl.
  intros Hd Hn.
  repeat (destruct Hd as [<-|Hd]; [
    repeat (destruct Hn as [<-|Hn]; [reflexivity|]); destruct Hn |]).
  destruct Hd.
Qed.

Lemma cellOf_Get (grid : Grid) day name c :
  cellOf grid day name = Some c ->
  exists row, Get grid day = Own row /\ Get row name = Own c.
Proof.
  unfold cellOf.
  destruct (getOwn String.eqb grid day) as [row|] eqn:Eg; [|discriminate].
  intros Er. exists row. split; now apply Get_Own.
Qed.
End GridFacts.

Section GridShape.
Import JS ScheduleService Grid.

Lemma shape_days (grid : Grid) : map fst (shape grid) = ownKeys grid.
Proof. unfold shape, ownKeys. rewrite map_map. reflexivity. Qed.

Lemma shape_row (grid : Grid) day row :
  getOwn String.eqb grid day = Some row -> In (day, Object_keys row) (shape grid).
Proof.
  induction grid as [|[d r] grid IH]; simpl; [discriminate|].
  destruct (String.eqb d day) eqn:E.
  - apply String.eqb_eq in E; subst d. intros [= ->]. now left.
  - intros Hg. right. now apply IH.
Qed.

Lemma shape_setOwn (grid : Grid) day row row' :
  getOwn String.eqb grid day = Some row ->
  Object_keys row' = Object_keys row ->
  shape (setOwn String.eqb grid day row') = shape grid.
Proof.
  intros Hg Hk. induction grid as [|[d r] grid IH]; simpl in *; [discriminate|].
  destruct (String.eqb d day) eqn:E; simpl.
  - injection Hg as ->. now rewrite Hk.
  - now rewrite IH.
Qed.

(** A plain schedule leaves the days and the names of their rows as they
    were. *)
Lemma place_plain (grid : Grid) (schedule : Schedule) :
  plain schedule ->
  exists grid', place grid schedule = Some grid' /\ shape grid' = shape grid.
Proof.
  intros [Hday Hstart]. unfold place.
  pose proof (Get_not_inherited grid _ Hday) as Hni.
  destruct (Get grid (day_of_week schedule)) as [row| |] eqn:Eg;
    [|congruence|eexists; split; reflexivity].
  assert (Hrow : getOwn String.eqb grid (day_of_week schedule) = Some row).
  { unfold Get in Eg.
    destruct (getOwn String.eqb grid (day_of_week schedule));
      [congruence | destruct (inherited _); discriminate]. }
  pose proof (Get_not_inherited row _ Hstart) as Hnr.
  destruct (Get row (start_time schedule)) as [c| |] eqn:Er;
    [|congruence|eexists; split; reflexivity].
  eexists; split; [reflexivity|].
  apply (shape_setOwn _ _ _ Hrow).
  apply ownKeys_setOwn_present. unfold Get in Er.
  destruct (getOwn String.eqb row (start_time schedule));
    [discriminate | rewrite Hstart in Er; discriminate Er].
Qed.

(** On plain schedules the grid has the six days of the catalog, and each
    row the four slots. *)
Lemma formatWeeklyGrid_plain (schedules : list Schedule) :
  Forall plain schedules ->
  exists grid,
    formatWeeklyGrid schedules = Some grid /\ shape grid = catalogShape.
Proof.
  unfold formatWeeklyGrid.
  assert (H0 : shape emptyGrid = catalogShape) by reflexivity.
  revert H0. generalize emptyGrid as grid.
  intros grid Hshape Hall. revert grid Hshape.
  induction Hall as [|s l Hs Hl IH]; intros grid Hshape; simpl.
  - now exists grid.
  - destruct (place_plain grid Hs) as (g1 & -> & Hs1).
    apply IH. congruence.
Qed.

(** In a grid of that shape, a plain schedule is accepted exactly when
    its day is a day of the catalog and its start time the start of a
    slot. *)
Lemma accepts_plain (grid : Grid) (schedule : Schedule) :
  shape grid = catalogShape -> plain schedule ->
  accepts grid schedule
  = existsb (String.eqb (day_of_week schedule)) days
    && existsb (String.eqb (start_time schedule)) slotStarts.
Proof.
  intros Hshape [Hday Hstart]. unfold accepts, Get.
  rewrite Hday.
  destruct (getOwn String.eqb grid (day_of_week schedule)) as [row|] eqn:Eg.
  - pose proof (shape_row _ _ Eg) as Hin. rewrite Hshape in Hin.
    assert (Hd : In (day_of_week schedule) days).
    { apply (in_map fst) in Hin. unfold catalogShape in Hin.
      rewrite map_map, map_id in Hin. exact Hin. }
    assert (Hkeys : Object_keys row = slotStarts).
    { unfold catalogShape in Hin. apply in_map_iff in Hin as (d & [= _ ->] & _).
      reflexivity. }
    replace (existsb (String.eqb (day_of_week schedule)) days) with true.
    2:{ symmetry. apply existsb_exists. exists (day_of_week schedule).
        split; [exact Hd | apply String.eqb_refl]. }
    rewrite Hstart, andb_true_l.
    destruct (getOwn String.eqb row (start_time schedule)) as [c|] eqn:Er;
      cbv beta iota.
    + symmetry. apply existsb_exists. exists (start_time schedule).
      split; [|apply String.eqb_refl].
      rewrite <- Hkeys. exact (getOwn_Some_In String.eqb String.eqb_eq _ _ Er).
    + apply (getOwn_None String.eqb String.eqb_eq) in Er.
      fold (Object_keys row) in Er. rewrite Hkeys in Er.
      symmetry. apply not_true_is_false. intros Hex.
      apply existsb_exists in Hex as (x & Hx & Hxe).
      apply String.eqb_eq in Hxe. subst x. contradiction.
  - apply (getOwn_None String.eqb String.eqb_eq) in Eg.
    rewrite <- shape_days, Hshape in Eg. unfold catalogShape in Eg.
    rewrite map_map, map_id in Eg.
    replace (existsb (String.eqb (day_of_week schedule)) days) with false;
      [reflexivity|].
    symmetry. apply not_true_is_false. intros Hex.
    apply existsb_exists in Hex as (x & Hx & Hxe).
    apply String.eqb_eq in Hxe. subst x. contradiction.
Qed.
End GridShape.

Section GridClaims.
Import JS ScheduleService Grid.

(** C3, at a schedule on Monday whose start time is ["toString"]: the
    grid builder gives the row of Monday a fifth property, named by that
    start time, beside the four slots of the catalog.  Of the empty list
    it makes the grid of the six days with the four slots each. *)
Theorem formatWeeklyGrid_stray_key :
  (exists grid row,
      formatWeeklyGrid [stray] = Some grid
      /\ Get grid "MONDAY" = Own row
      /\ Object_keys row = slotStarts ++ ["toString"]
      /\ Object_keys row <> slotStarts)
  /\ (exists grid,
         formatWeeklyGrid [] = Some grid /\ shape grid = catalogShape).
Proof.
  split.
  - eexists. eexists. split; [reflexivity|].
    split; [reflexivity|]. split; [reflexivity|].
    discriminate.
  - eexists. split; reflexivity.
Qed.

(** C4, at the same schedule: its start time is the start of no slot of
    the catalog, and the grid builder does not leave it out, it stores it
    in the row of its day under its start time.  A schedule on Monday at
    08:00, alone, is in its cell and every other cell is empty. *)
Theorem formatWeeklyGrid_stray_kept :
  ~ In (start_time stray) slotStarts
  /\ (exists grid row,
        formatWeeklyGrid [stray] = Some grid
        /\ Get grid (day_of_week stray) = Own row
        /\ Get row (start_time stray) = Own (Some stray))
  /\ (exists grid,
        formatWeeklyGrid [lesson "MONDAY" "08:00"] = Some grid
        /\ forall day name, In day days -> In name slotStarts ->
             cellOf grid day name
             = if String.eqb day "MONDAY" && String.eqb name "08:00"
               then Some (Some (lesson "MONDAY" "08:00")) else Some None).
Proof.
  split; [|split].
  - unfold slotStarts; simpl. intros [H|[H|[H|[H|[]]]]]; discriminate H.
  - eexists. eexists. repeat split; reflexivity.
  - eexists. split; [reflexivity|].
    unfold days, slotStarts; simpl. intros day name Hd Hn.
    repeat (destruct Hd as [<-|Hd]; [
      repeat (destruct Hn as [<-|Hn]; [reflexivity|]); destruct Hn |]).
    destruct Hd.
Qed.

(** Where no schedule has a day named like a property of
    [%Object.prototype%] nor the start time [__proto__], the cell of two
    schedules of the list holds the later one. *)
Lemma formatWeeklyGrid_later
        (before between after : list Schedule) (first last : Schedule)
        (day start : string) :
  In day days -> In start slotStarts ->
  day_of_week first = day -> start_time first = start ->
  day_of_week last = day -> start_time last = start ->
  Forall (fun s => ~ (day_of_week s = day /\ start_time s = start)) after ->
  Forall modelled (before ++ first :: between ++ last :: after) ->
  exists grid row,
    formatWeeklyGrid (before ++ first :: between ++ last :: after) = Some grid
    /\ Get grid day = Own row
    /\ Get row start = Own (Some last).
Proof.
  intros Hday Hstart Hfd Hfs Hld Hls Hafter Hall.
  replace (before ++ first :: between ++ last :: after)
    with ((before ++ first :: between) ++ last :: after) in *
    by (rewrite <- app_assoc; reflexivity).
  apply Forall_app in Hall as [Hprefix Hrest].
  inversion Hrest as [|? ? Hlast Hafterm]; subst.
  unfold formatWeeklyGrid. rewrite populate_app.
  destruct (populate_modelled Hprefix emptyGrid) as (g1 & -> & Hc1).
  pose proof (@emptyGrid_cell _ _ Hday Hstart) as He.
  destruct (Hc1 (day_of_week last) (start_time last)) as [Hex1 _];
    [congruence|].
  simpl.
  destruct (place_modelled g1 Hlast) as (g2 & -> & Hc2).
  destruct (populate_modelled Hafterm g2) as (g3 & Hp3 & Hc3).
  assert (Hcell2 : cellOf g2 (day_of_week last) (start_time last)
                   = Some (Some last)).
  { rewrite Hc2, (accepts_cell _ _ Hex1). unfold at_cell.
    now rewrite !String.eqb_refl. }
  destruct (Hc3 (day_of_week last) (start_time last)) as [_ Hkeep];
    [congruence|].
  assert (Hcell3 : cellOf g3 (day_of_week last) (start_time last)
                   = Some (Some last)).
  { rewrite Hkeep; [exact Hcell2|].
    apply forallb_forall. intros s Hs.
    rewrite Forall_forall in Hafter. specialize (Hafter s Hs).
    unfold at_cell. apply negb_true_iff. apply not_true_is_false.
    intros Hb. apply andb_prop in Hb as [Hb1 Hb2].
    apply String.eqb_eq in Hb1, Hb2. apply Hafter; split; congruence. }
  destruct (cellOf_Get _ _ _ Hcell3) as (row & Hg & Hr).
  exists g3, row. rewrite <- Hld, <- Hls. auto.
Qed.

(** The method returns a grid exactly when every schedule is placed within
    the grid. *)
Lemma formatWeeklyGrid_completion_returns (schedules : list Schedule)
      (grid : Grid) :
  formatWeeklyGrid_completion schedules = Returns grid
  <-> formatWeeklyGrid schedules = Some grid.
Proof.
  unfold formatWeeklyGrid_completion, formatWeeklyGrid.
  generalize emptyGrid as start. induction schedules as [|s l IH]; intros start.
  - simpl. split; intros [= ->]; reflexivity.
  - simpl. destruct (place start s) as [g|]; [apply IH|].
    destruct (refused s); split; discriminate.
Qed.

(** A schedule whose day is the name of a built-in function, and whose
    start time is [name] or [length], is refused in the grid of the
    catalog and in every grid with the same days. *)
Lemma refused_throws (grid : Grid) (schedule : Schedule) (rest : list Schedule) :
  shape grid = catalogShape -> refused schedule = true ->
  complete grid (schedule :: rest) = ThrowsTypeError.
Proof.
  intros Hshape Hr. simpl. rewrite Hr.
  unfold refused, holdsFunction in Hr.
  apply andb_prop in Hr as [Hd _]. apply andb_prop in Hd as [Hi _].
  unfold place, Get.
  destruct (getOwn String.eqb grid (day_of_week schedule)) as [row|] eqn:Eg.
  - exfalso. pose proof (shape_row _ _ Eg) as Hin. rewrite Hshape in Hin.
    apply (in_map fst) in Hin. unfold catalogShape in Hin.
    rewrite map_map, map_id in Hin. cbn [fst] in Hin.
    revert Hi. unfold days in Hin. simpl in Hin.
    repeat (destruct Hin as [<-|Hin]; [discriminate|]). destruct Hin.
  - rewrite Hi. reflexivity.
Qed.

(** C5, at two schedules on Monday at 08:00 followed by a schedule whose
    day is ["constructor"] and whose start time is ["name"]: the first two
    are at one cell of the catalog, and of these two alone the method
    returns the grid whose cell holds the later one; with the third, whose
    day reaches the built-in function [Object] and whose start time its
    property [name], which is not writable, the method throws a
    [TypeError] and returns no grid, so that no cell holds the later
    schedule. *)
Theorem formatWeeklyGrid_throws :
  let first := lesson "MONDAY" "08:00" in
  let later := Workload.course 3 "Martin" 2 "08:00" "10:00" in
  at_cell "MONDAY" "08:00" first = true
  /\ at_cell "MONDAY" "08:00" later = true
  /\ first <> later
  /\ (exists grid,
        formatWeeklyGrid_completion [first; later] = Returns grid
        /\ cellOf grid "MONDAY" "08:00" = Some (Some later))
  /\ formatWeeklyGrid_completion [first; later; lesson "constructor" "name"]
     = ThrowsTypeError
  /\ formatWeeklyGrid [first; later; lesson "constructor" "name"] = None.
Proof.
  cbv zeta. split; [reflexivity|]. split; [reflexivity|].
  split; [discriminate|].
  split; [eexists; split; reflexivity|].
  split; reflexivity.
Qed.
End GridClaims.

(* ================================================================= *)
(** * The validator *)

Section ValidatorFacts.
Import JS ScheduleService Rules.

(** What a rule adds to the list of errors. *)
Let verdict (data : UpdateScheduleRequest.t) (rule : Rule) : list string :=
  if violated rule data then [message rule] else [].

Lemma filter_verdicts data (rules : list Rule) :
  map message (filter (fun rule => violated rule data) rules)
  = flat_map (verdict data) rules.
Proof.
  induction rules as [|r l IH]; simpl; [reflexivity|].
  unfold verdict at 1. destruct (violated r data); simpl; now rewrite IH.
Qed.

Lemma findDay_existsb day :
  negb (existsb (String.eqb day) (map value DAYS_OF_WEEK))
  = match findDay day with None => true | Some _ => false end.
Proof.
  unfold findDay. induction DAYS_OF_WEEK as [|d l IH]; simpl; [reflexivity|].
  rewrite (String.eqb_sym day).
  destruct (String.eqb (value d) day); simpl; auto.
Qed.

(** The errors are the messages of the rules violated, in the order in
    which the rules are declared. *)
Lemma validateScheduleData_errors data :
  Validation.errors (validateScheduleData data)
  = map message (filter (fun rule => violated rule data) declared).
Proof.
  rewrite filter_verdicts.
  destruct data as [c t s dy st en y sm].
  unfold validateScheduleData, declared, flat_map, verdict, violated, push.
  cbn [Validation.errors UpdateScheduleRequest.class_id
       UpdateScheduleRequest.teacher_id UpdateScheduleRequest.subject_id
       UpdateScheduleRequest.day_of_week UpdateScheduleRequest.start_time
       UpdateScheduleRequest.end_time UpdateScheduleRequest.academic_year
       UpdateScheduleRequest.semester message].
  cbv zeta.
  pose proof findDay_existsb as Hd.
  destruct dy as [dy|]; [rewrite Hd; destruct (findDay dy)|]; clear Hd;
    (destruct c as [c|]; [destruct (missing c)|]);
    (destruct t as [t|]; [destruct (missing t)|]);
    (destruct s as [s|]; [destruct (missing s)|]);
    cbn [app];
    (destruct st as [st|];
     [destruct en as [en|];
      [destruct (truthy_string st);
       [destruct (truthy_string en); [destruct (string_ge st en)|]|]|]|]);
    cbn [andb app];
    (destruct y as [y|];
     [destruct (truthy_string y); [destruct (yearPattern_test y)|]|]);
    cbn [andb negb app];
    (destruct sm as [sm|];
     [destruct (truthy_string sm); [destruct (isSemester sm)|]|]);
    reflexivity.
Qed.

Lemma message_injective r r' : message r = message r' -> r = r'.
Proof. destruct r, r'; intros H; try reflexivity; discriminate H. Qed.

Lemma declared_all rule : In rule declared.
Proof. destruct rule; simpl; tauto. Qed.

(** The message of a rule is among the errors exactly when the rule is
    violated. *)
Lemma In_errors data rule :
  In (message rule) (Validation.errors (validateScheduleData data))
  <-> violated rule data = true.
Proof.
  rewrite validateScheduleData_errors, in_map_iff. split.
  - intros (r & Hm & Hin). apply message_injective in Hm; subst r.
    now apply filter_In in Hin.
  - intros Hv. exists rule. split; [reflexivity|].
    apply filter_In. split; [apply declared_all | exact Hv].
Qed.

Lemma isValid_errors data :
  Validation.isValid (validateScheduleData data) = true
  <-> Validation.errors (validateScheduleData data) = [].
Proof.
  assert (H : Validation.isValid (validateScheduleData data)
              = Nat.eqb (List.length (Validation.errors (validateScheduleData data))) 0)
    by reflexivity.
  rewrite H. destruct (Validation.errors (validateScheduleData data)); simpl.
  - tauto.
  - split; discriminate.
Qed.

(** ** Numbers that are missing *)

Lemma SFcompare_self s m e :
  SFcompare (S754_finite s m e) (S754_finite s m e) = Some Eq.
Proof.
  destruct s; simpl; rewrite Z.compare_refl, Pos.compare_refl; reflexivity.
Qed.

(** [!x || x <= 0] is the negation of [0 < x]. *)
Lemma missing_not_positive (x : number) : missing x = negb (0 <? x)%float.
Proof.
  unfold missing, truthy_number, is_zero, is_nan.
  rewrite !eqb_spec, leb_spec, ltb_spec.
  change (Prim2SF zero) with (S754_zero false).
  change (Prim2SF 0%float) with (S754_zero false).
  unfold SFeqb, SFleb, SFltb.
  destruct (Prim2SF x) as [s|s| |s m e].
  - destruct s; reflexivity.
  - destruct s; reflexivity.
  - reflexivity.
  - rewrite SFcompare_self. destruct s; reflexivity.
Qed.

Lemma positive_integer_positive (x : number) :
  isPositiveInteger x = true -> (0 <? x)%float = true.
Proof.
  unfold isPositiveInteger, Number_value. rewrite ltb_spec.
  change (Prim2SF 0%float) with (S754_zero false).
  destruct (Prim2SF x) as [s|s| |s m e]; try discriminate.
  destruct s; [|reflexivity].
  destruct (0 <=? e); cbn [Qnum Qden inject_Z]; [|discriminate].
  intros H. apply andb_prop in H as [H _]. apply Z.ltb_lt in H.
  pose proof (Z.pow_nonneg 2 e ltac:(lia)). pose proof (Pos2Z.neg_is_neg m).
  exfalso. nia.
Qed.
End ValidatorFacts.

Section ValidatorClaims.
Import JS ScheduleService Rules.

(** C6: the validator makes each of its seven checks whatever the others
    find.  The errors it answers are the messages of the rules violated,
    one for each, in the order in which the rules are declared (class,
    teacher, subject, day, times, academic year, semester); and
    [isValid] is true exactly when there is no error. *)
Theorem validateScheduleData_collects (data : UpdateScheduleRequest.t) :
  Validation.errors (validateScheduleData data)
  = map message (filter (fun rule => violated rule data) declared)
  /\ (forall rule,
        In (message rule) (Validation.errors (validateScheduleData data))
        <-> violated rule data = true)
  /\ NoDup (Validation.errors (validateScheduleData data))
  /\ (Validation.isValid (validateScheduleData data) = true
      <-> Validation.errors (validateScheduleData data) = []).
Proof.
  split; [apply validateScheduleData_errors|].
  split; [intros rule; apply In_errors|].
  split; [|apply isValid_errors].
  rewrite validateScheduleData_errors.
  apply Injective_map_NoDup; [exact message_injective|].
  apply NoDup_filter. unfold declared.
  repeat (constructor; [simpl; intuition discriminate|]). constructor.
Qed.

(** C7 as it is stated fails: with the start time 10:00 and the empty
    string for the end time, both fields are there, 10:00 does not sort
    before the empty string, and no error is reported. *)
Lemma validateScheduleData_times_counterexample :
  ~ (forall data s e,
       UpdateScheduleRequest.start_time data = Some s ->
       UpdateScheduleRequest.end_time data = Some e ->
       (In timeMessage (Validation.errors (validateScheduleData data))
        <-> String.ltb s e = false)).
Proof.
  intros H.
  specialize (H (timesOnly "10:00" "") "10:00" "" eq_refl eq_refl).
  destruct H as [_ H]. exact (H eq_refl).
Qed.

(** C7, amended: when the start time and the end time are both there and
    neither is the empty string, the error of the times is reported
    exactly when the start time does not sort strictly before the end
    time, as strings; when one of the two is the empty string it is not
    reported. *)
Theorem validateScheduleData_times (data : UpdateScheduleRequest.t) (s e : string) :
  UpdateScheduleRequest.start_time data = Some s ->
  UpdateScheduleRequest.end_time data = Some e ->
  (In timeMessage (Validation.errors (validateScheduleData data))
   <-> s <> "" /\ e <> "" /\ String.ltb s e = false).
Proof.
  intros Hs He. rewrite (In_errors data TimeRule).
  unfold violated. rewrite Hs, He. unfold truthy_string, string_ge.
  rewrite !andb_true_iff, !negb_true_iff, !String.eqb_neq. tauto.
Qed.

(** C7 at a start time of 10:00 with an end time of 09:00, which is not
    valid, and at 09:00 with 10:00, where the times give no error. *)
Lemma validateScheduleData_times_witness :
  (In timeMessage (Validation.errors (validateScheduleData (timesOnly "10:00" "09:00")))
   <-> "10:00" <> "" /\ "09:00" <> "" /\ String.ltb "10:00" "09:00" = false)
  /\ (In timeMessage (Validation.errors (validateScheduleData (timesOnly "09:00" "10:00")))
      <-> "09:00" <> "" /\ "10:00" <> "" /\ String.ltb "09:00" "10:00" = false)
  /\ Validation.isValid (validateScheduleData (timesOnly "10:00" "09:00")) = false
  /\ Validation.errors (validateScheduleData (timesOnly "09:00" "10:00")) = [].
Proof.
  split; [|split; [|split]].
  - apply (@validateScheduleData_times (timesOnly "10:00" "09:00") "10:00" "09:00");
      reflexivity.
  - apply (@validateScheduleData_times (timesOnly "09:00" "10:00") "09:00" "10:00");
      reflexivity.
  - reflexivity.
  - reflexivity.
Defined.

(** C8 as it is stated fails: the class reference 1.5 is not a positive
    integer, and no error is reported for it. *)
Lemma validateScheduleData_reference_counterexample :
  ~ (forall data x,
       UpdateScheduleRequest.class_id data = Some x ->
       (In classMessage (Validation.errors (validateScheduleData data))
        <-> isPositiveInteger x = false)).
Proof.
  intros H.
  specialize (H (classOnly 1.5%float) 1.5%float eq_refl).
  destruct H as [_ H]. exact (H eq_refl).
Qed.

(** C8, amended: when the class, the teacher or the subject reference is
    there, the validator reports the error of that field exactly when the
    value is not a number above zero (zero, a negative number, or not a
    number); it reports none for a positive integer, and none either for
    another number above zero. *)
Theorem validateScheduleData_reference (data : UpdateScheduleRequest.t) (x : number) :
  (UpdateScheduleRequest.class_id data = Some x ->
   (In classMessage (Validation.errors (validateScheduleData data))
    <-> (0 <? x)%float = false))
  /\ (UpdateScheduleRequest.teacher_id data = Some x ->
      (In teacherMessage (Validation.errors (validateScheduleData data))
       <-> (0 <? x)%float = false))
  /\ (UpdateScheduleRequest.subject_id data = Some x ->
      (In subjectMessage (Validation.errors (validateScheduleData data))
       <-> (0 <? x)%float = false))
  /\ (isPositiveInteger x = true -> (0 <? x)%float = true).
Proof.
  split; [|split; [|split]].
  - intros Hx. rewrite (In_errors data ClassRule). unfold violated.
    rewrite Hx, missing_not_positive. apply negb_true_iff.
  - intros Hx. rewrite (In_errors data TeacherRule). unfold violated.
    rewrite Hx, missing_not_positive. apply negb_true_iff.
  - intros Hx. rewrite (In_errors data SubjectRule). unfold violated.
    rewrite Hx, missing_not_positive. apply negb_true_iff.
  - apply positive_integer_positive.
Qed.

(** C8 at the class reference 0, which is not valid and whose error is
    that of the class, and at the class reference 5, which gives no
    error. *)
Lemma validateScheduleData_reference_witness :
  (In classMessage (Validation.errors (validateScheduleData (classOnly 0%float)))
   <-> (0 <? 0)%float = false)
  /\ (In classMessage (Validation.errors (validateScheduleData (classOnly 5%float)))
      <-> (0 <? 5)%float = false)
  /\ validateScheduleData (classOnly 0%float)
     = {| Validation.isValid := false; Validation.errors := [classMessage] |}
  /\ validateScheduleData (classOnly 5%float)
     = {| Validation.isValid := true; Validation.errors := [] |}.
Proof.
  split; [|split; [|split]].
  - apply (proj1 (validateScheduleData_reference (classOnly 0%float) 0%float)).
    reflexivity.
  - apply (proj1 (validateScheduleData_reference (classOnly 5%float) 5%float)).
    reflexivity.
  - reflexivity.
  - reflexivity.
Defined.

(** C10: the validator finds the request without any field valid, with
    no error; and whatever else a request holds, a reference that is not
    there is not reported. *)
Theorem validateScheduleData_empty :
  validateScheduleData UpdateScheduleRequest.empty
  = {| Validation.isValid := true; Validation.errors := [] |}
  /\ forall data,
      (UpdateScheduleRequest.class_id data = None ->
       ~ In classMessage (Validation.errors (validateScheduleData data)))
      /\ (UpdateScheduleRequest.teacher_id data = None ->
          ~ In teacherMessage (Validation.errors (validateScheduleData data)))
      /\ (UpdateScheduleRequest.subject_id data = None ->
          ~ In subjectMessage (Validation.errors (validateScheduleData data))).
Proof.
  split; [reflexivity|]. intros data.
  rewrite (In_errors data ClassRule), (In_errors data TeacherRule),
    (In_errors data SubjectRule).
  unfold violated. repeat split; intros ->; discriminate.
Qed.
End ValidatorClaims.

(* ================================================================= *)
(** * Durations *)

Section ClockFacts.
Import JS ScheduleService Clock.

Lemma strip_prefix_app (p s : string) : strip_prefix p (p ++ s)%string = Some s.
Proof.
  induction p as [|a p IH]; simpl; [reflexivity|].
  now rewrite Ascii.eqb_refl.
Qed.

Lemma In_range (n : nat) (z : Z) : 0 <= z < Z.of_nat n -> In z (range n).
Proof.
  intros Hz. unfold range. apply in_map_iff. exists (Z.to_nat z).
  split; [lia|]. apply in_seq. lia.
Qed.

(** Every time of the clock is read back as it was written. *)
Lemma time_of_day_clock :
  forallb (fun h =>
    forallb (fun m =>
      match time_of_day (HHMM h m ++ ":00")%string with
      | Some ms => ms =? minutes h m * 60000
      | None => false
      end) (range 60)) (range 24) = true.
Proof. vm_compute. reflexivity. Qed.

Lemma digitChar_compare (x y : Z) :
  0 <= x <= 9 -> 0 <= y <= 9 ->
  Ascii.compare (digitChar x) (digitChar y) = (x ?= y).
Proof.
  intros Hx Hy. unfold Ascii.compare, digitChar.
  rewrite !N_ascii_embedding by lia.
  rewrite Z2N.inj_compare by lia.
  apply Z.add_compare_mono_l.
Qed.

(** Two times of the clock compare as strings the way they do as times:
    both are written in two digits for the hour and two for the minute. *)
Lemma HHMM_order (h1 m1 h2 m2 : Z) :
  onTheClock h1 m1 -> onTheClock h2 m2 ->
  String.ltb (HHMM h1 m1) (HHMM h2 m2) = (minutes h1 m1 <? minutes h2 m2).
Proof.
  intros [Hh1 Hm1] [Hh2 Hm2]. unfold String.ltb, HHMM, minutes.
  cbn [String.compare].
  pose proof (Z.div_mod h1 10 ltac:(lia)).
  pose proof (Z.mod_pos_bound h1 10 ltac:(lia)).
  pose proof (Z.div_mod h2 10 ltac:(lia)).
  pose proof (Z.mod_pos_bound h2 10 ltac:(lia)).
  pose proof (Z.div_mod m1 10 ltac:(lia)).
  pose proof (Z.mod_pos_bound m1 10 ltac:(lia)).
  pose proof (Z.div_mod m2 10 ltac:(lia)).
  pose proof (Z.mod_pos_bound m2 10 ltac:(lia)).
  rewrite !digitChar_compare by lia.
  change (Ascii.compare ":" ":") with Eq. cbv iota.
  destruct (Z.compare_spec (h1 / 10) (h2 / 10));
    [destruct (Z.compare_spec (h1 mod 10) (h2 mod 10));
     [destruct (Z.compare_spec (m1 / 10) (m2 / 10));
      [destruct (Z.compare_spec (m1 mod 10) (m2 mod 10))| |]| |]| |];
    symmetry; first [apply Z.ltb_lt | apply Z.ltb_ge]; lia.
Qed.

Lemma time_of_day_HHMM (h m : Z) :
  onTheClock h m ->
  time_of_day (HHMM h m ++ ":00")%string = Some (minutes h m * 60000).
Proof.
  intros [Hh Hm].
  pose proof time_of_day_clock as Hall.
  rewrite forallb_forall in Hall.
  specialize (Hall h (@In_range 24 h ltac:(lia))).
  rewrite forallb_forall in Hall.
  specialize (Hall m (@In_range 60 m ltac:(lia))).
  destruct (time_of_day (HHMM h m ++ ":00")%string) as [ms|]; [|discriminate].
  apply Z.eqb_eq in Hall. now subst ms.
Qed.

Lemma getTime_HHMM (host : Host) (h m : Z) :
  onTheClock h m ->
  getTime host (HHMM h m)
  = Some (jan_1_2000 + minutes h m * 60000 - LocalTZA host).
Proof.
  intros Hc. unfold getTime, Date_parse.
  rewrite strip_prefix_app, (time_of_day_HHMM Hc). reflexivity.
Qed.

Lemma calculateDuration_HHMM (host : Host) (h1 m1 h2 m2 : Z) :
  onTheClock h1 m1 -> onTheClock h2 m2 ->
  calculateDuration host (HHMM h1 m1) (HHMM h2 m2)
  = hoursOfMinutes (minutes h2 m2 - minutes h1 m1).
Proof.
  intros H1 H2. unfold calculateDuration, hoursOfMinutes.
  rewrite (getTime_HHMM host H1), (getTime_HHMM host H2).
  unfold time_difference. f_equal. f_equal. lia.
Qed.

Lemma hoursOfMinutes_rounds_all :
  forallb (fun d => rounds d (hoursOfMinutes d)) (range 1440) = true.
Proof. vm_compute. reflexivity. Qed.

Lemma hoursOfMinutes_rounds (d : Z) :
  0 <= d < 1440 ->
  exists q,
    Number_value (hoursOfMinutes d) = Some q
    /\ (Qabs (q - Qmake d 60) <= Qmake d 60 * Qmake 1 (2 ^ 53))%Q
    /\ (d mod 15 = 0 -> (q == Qmake d 60)%Q).
Proof.
  intros Hd. pose proof hoursOfMinutes_rounds_all as Hall.
  rewrite forallb_forall in Hall.
  specialize (Hall d (@In_range 1440 d ltac:(lia))).
  unfold rounds in Hall.
  destruct (Number_value (hoursOfMinutes d)) as [q|]; [|discriminate].
  exists q. apply andb_prop in Hall as [Hle Heq].
  split; [reflexivity|]. split.
  - now apply Qle_bool_iff.
  - intros Hm. apply Z.eqb_eq in Hm. rewrite Hm in Heq. simpl in Heq.
    now apply Qeq_bool_iff.
Qed.
End ClockFacts.

Section ClockClaims.
Import JS ScheduleService Clock.

(** The two durations of the catalog's kind, on every host. *)
Lemma calculateDuration_two_hours (host : Host) :
  calculateDuration host "10:15" "12:15" = 2%float
  /\ calculateDuration host "08:00" "10:00" = 2%float.
Proof.
  split.
  - exact (@calculateDuration_HHMM host 10 15 12 15
             ltac:(unfold onTheClock; lia) ltac:(unfold onTheClock; lia)).
  - exact (@calculateDuration_HHMM host 8 0 10 0
             ltac:(unfold onTheClock; lia) ltac:(unfold onTheClock; lia)).
Qed.

(** C9 as it is stated fails: from 08:00 to 08:01 the duration is the
    number 0.016666666666666666, which is not the sixtieth of an hour. *)
Lemma calculateDuration_counterexample :
  ~ (forall host h1 m1 h2 m2,
       onTheClock h1 m1 -> onTheClock h2 m2 ->
       minutes h1 m1 < minutes h2 m2 ->
       exists q,
         Number_value (calculateDuration host (HHMM h1 m1) (HHMM h2 m2)) = Some q
         /\ (q == Qmake (minutes h2 m2 - minutes h1 m1) 60)%Q).
Proof.
  intros H.
  destruct (H douala 8 0 8 1) as (q & Hq & Heq);
    try (unfold onTheClock, minutes; lia).
  vm_compute in Hq. injection Hq as <-.
  vm_compute in Heq. discriminate Heq.
Qed.

(** C9, amended: for two times of the clock, the first before the second,
    the duration calculator answers the quotient in binary64 of the
    milliseconds between them by the milliseconds of an hour.  That
    number is within 2^-53, relatively, of the hours between the two
    times, fractions of an hour included, and it is exactly those hours
    when the minutes between the two times are a multiple of fifteen. *)
Theorem calculateDuration_hours (host : Host) (h1 m1 h2 m2 : Z) :
  onTheClock h1 m1 -> onTheClock h2 m2 ->
  minutes h1 m1 < minutes h2 m2 ->
  let d := minutes h2 m2 - minutes h1 m1 in
  calculateDuration host (HHMM h1 m1) (HHMM h2 m2) = hoursOfMinutes d
  /\ exists q,
       Number_value (calculateDuration host (HHMM h1 m1) (HHMM h2 m2)) = Some q
       /\ (Qabs (q - Qmake d 60) <= Qmake d 60 * Qmake 1 (2 ^ 53))%Q
       /\ (d mod 15 = 0 -> (q == Qmake d 60)%Q).
Proof.
  intros H1 H2 Hlt d.
  rewrite (calculateDuration_HHMM host H1 H2). fold d.
  split; [reflexivity|].
  apply hoursOfMinutes_rounds.
  unfold d, minutes, onTheClock in *. lia.
Qed.

(** C9 from 10:15 to 12:15 and from 08:00 to 10:00: two hours each. *)
Lemma calculateDuration_hours_witness :
  (calculateDuration douala "10:15" "12:15" = 2%float
   /\ exists q,
        Number_value (calculateDuration douala "10:15" "12:15") = Some q
        /\ (Qabs (q - Qmake 120 60) <= Qmake 120 60 * Qmake 1 (2 ^ 53))%Q
        /\ (120 mod 15 = 0 -> (q == Qmake 120 60)%Q))
  /\ (calculateDuration douala "08:00" "10:00" = 2%float
   /\ exists q,
        Number_value (calculateDuration douala "08:00" "10:00") = Some q
        /\ (Qabs (q - Qmake 120 60) <= Qmake 120 60 * Qmake 1 (2 ^ 53))%Q
        /\ (120 mod 15 = 0 -> (q == Qmake 120 60)%Q)).
Proof.
  split.
  - apply (@calculateDuration_hours douala 10 15 12 15);
      unfold onTheClock, minutes; lia.
  - apply (@calculateDuration_hours douala 8 0 10 0);
      unfold onTheClock, minutes; lia.
Defined.
End ClockClaims.

(* ================================================================= *)
(** * Workload *)

Section PropertyOrder.
Import JS.

Lemma filter_split {A} (p : A -> bool) (l : list A) :
  Permutation (filter p l ++ filter (fun a => negb (p a)) l) l.
Proof.
  induction l as [|a l IH]; simpl; [constructor|].
  destruct (p a); simpl.
  - now constructor.
  - apply Permutation_sym, Permutation_cons_app, Permutation_sym, IH.
Qed.

Lemma propertyOrder_perm (keys : list Z) : Permutation (propertyOrder keys) keys.
Proof.
  unfold propertyOrder.
  rewrite <- (ZSort.Permuted_sort (filter isArrayIndex keys)).
  apply filter_split.
Qed.

Lemma sort_ascending (keys : list Z) :
  NoDup keys -> StronglySorted Z.lt (ZSort.sort keys).
Proof.
  intros Hnd.
  assert (Hs : StronglySorted (fun x y => is_true (Z.leb x y)) (ZSort.sort keys)).
  { apply ZSort.StronglySorted_sort. intros x y z Hxy Hyz.
    unfold is_true in *. rewrite Z.leb_le in *. lia. }
  assert (Hn : NoDup (ZSort.sort keys))
    by (eapply Permutation_NoDup; [apply ZSort.Permuted_sort | exact Hnd]).
  induction Hs as [|a l Hs IH Hall]; constructor.
  - apply IH. now inversion Hn.
  - inversion Hn as [|? ? Hnotin _]; subst.
    rewrite Forall_forall in *. intros x Hx. specialize (Hall x Hx).
    unfold is_true in Hall. rewrite Z.leb_le in Hall.
    assert (x <> a) by (intros ->; contradiction). lia.
Qed.
End PropertyOrder.

Section WorkloadFacts.
Import JS ScheduleService Workload.
Variable host : Host.
Variables (key : Schedule -> Z) (label : Schedule -> string).

Let duration (s : Schedule) : number :=
  calculateDuration host (start_time s) (end_time s).

Lemma In_firstAppearance (ids : list Z) (id : Z) :
  In id (firstAppearance ids) <-> In id ids.
Proof.
  induction ids as [|a ids IH]; simpl; [tauto|].
  rewrite filter_In, IH, negb_true_iff, Z.eqb_neq.
  destruct (Z.eq_dec a id); [subst; tauto | intuition congruence].
Qed.

Lemma NoDup_firstAppearance (ids : list Z) : NoDup (firstAppearance ids).
Proof.
  induction ids as [|a ids IH]; simpl; constructor.
  - rewrite filter_In, negb_true_iff, Z.eqb_neq. tauto.
  - now apply NoDup_filter.
Qed.

Lemma firstAppearance_snoc (ids : list Z) (id : Z) :
  firstAppearance (ids ++ [id])
  = if existsb (Z.eqb id) ids then firstAppearance ids
    else firstAppearance ids ++ [id].
Proof.
  induction ids as [|a ids IH]; simpl; [reflexivity|].
  rewrite IH. destruct (Z.eqb_spec id a) as [->|Hne]; simpl.
  - destruct (existsb (Z.eqb a) ids); [reflexivity|].
    rewrite filter_app; simpl. rewrite Z.eqb_refl; simpl.
    now rewrite app_nil_r.
  - destruct (existsb (Z.eqb id) ids); [reflexivity|].
    rewrite filter_app; simpl.
    destruct (Z.eqb_spec id a); [contradiction|reflexivity].
Qed.

Lemma existsb_In (ids : list Z) (id : Z) :
  existsb (Z.eqb id) ids = true <-> In id ids.
Proof.
  rewrite existsb_exists. split.
  - intros (x & Hx & He). apply Z.eqb_eq in He. now subst.
  - intros H. exists id. split; [exact H | apply Z.eqb_refl].
Qed.

Lemma accumulate_same (o : object Z Hours) k n d :
  getOwn Z.eqb (accumulate o k n d) k
  = Some (match getOwn Z.eqb o k with
          | Some e => {| name := name e; hours := (hours e + d)%float |}
          | None => {| name := n; hours := (0 + d)%float |}
          end).
Proof.
  unfold accumulate. destruct (getOwn Z.eqb o k) as [e|] eqn:E.
  - rewrite E. apply (getOwn_setOwn_same Z.eqb Z.eqb_eq).
  - rewrite (getOwn_setOwn_same Z.eqb Z.eqb_eq).
    apply (getOwn_setOwn_same Z.eqb Z.eqb_eq).
Qed.

Lemma accumulate_other (o : object Z Hours) k k' n d :
  k <> k' -> getOwn Z.eqb (accumulate o k n d) k' = getOwn Z.eqb o k'.
Proof.
  intros Hk. unfold accumulate. destruct (getOwn Z.eqb o k) as [e|] eqn:E.
  - rewrite E. now apply (getOwn_setOwn_other Z.eqb Z.eqb_eq).
  - rewrite (getOwn_setOwn_same Z.eqb Z.eqb_eq).
    rewrite !(getOwn_setOwn_other Z.eqb Z.eqb_eq) by exact Hk. reflexivity.
Qed.

Lemma accumulate_keys (o : object Z Hours) k n d :
  ownKeys (accumulate o k n d)
  = if existsb (Z.eqb k) (ownKeys o) then ownKeys o else ownKeys o ++ [k].
Proof.
  unfold accumulate. destruct (getOwn Z.eqb o k) as [e|] eqn:E.
  - rewrite E.
    rewrite (proj2 (existsb_In (ownKeys o) k))
      by exact (getOwn_Some_In Z.eqb Z.eqb_eq _ _ E).
    apply ownKeys_setOwn_present. congruence.
  - rewrite (getOwn_setOwn_same Z.eqb Z.eqb_eq).
    rewrite ownKeys_setOwn_present
      by (rewrite (getOwn_setOwn_same Z.eqb Z.eqb_eq); discriminate).
    rewrite (ownKeys_setOwn_absent _ _ _ _ E).
    apply (getOwn_None Z.eqb Z.eqb_eq) in E.
    destruct (existsb (Z.eqb k) (ownKeys o)) eqn:Ex; [|reflexivity].
    apply existsb_In in Ex. contradiction.
Qed.

Lemma hoursBy_snoc (l : list Schedule) (s : Schedule) :
  hoursBy host key label (l ++ [s])
  = accumulate (hoursBy host key label l) (key s) (label s) (duration s).
Proof. unfold hoursBy. rewrite fold_left_app. reflexivity. Qed.

Lemma sum_snoc (xs : list number) (x : number) :
  sum (xs ++ [x]) = (sum xs + x)%float.
Proof. unfold sum. rewrite fold_left_app. reflexivity. Qed.

Lemma recordsOf_snoc (l : list Schedule) (s : Schedule) (id : Z) :
  recordsOf key (l ++ [s]) id
  = recordsOf key l id ++ (if key s =? id then [s] else []).
Proof. unfold recordsOf. rewrite filter_app. reflexivity. Qed.

Lemma recordsOf_nil (l : list Schedule) (id : Z) :
  ~ In id (map key l) -> recordsOf key l id = [].
Proof.
  intros Hn. unfold recordsOf.
  induction l as [|s l IH]; simpl in *; [reflexivity|].
  destruct (Z.eqb_spec (key s) id); [tauto|]. apply IH. tauto.
Qed.

Lemma recordsOf_cons (l : list Schedule) (id : Z) :
  In id (map key l) -> recordsOf key l id <> [].
Proof.
  intros Hin Hnil. apply in_map_iff in Hin as (s & Hk & Hs).
  assert (In s (recordsOf key l id))
    by (apply filter_In; split; [exact Hs | now apply Z.eqb_eq]).
  rewrite Hnil in H. contradiction.
Qed.

(** What the object holds after the [forEach]: a property for each
    identifier, created when the identifier first appears, with the name
    of its first record and the sum of the durations of its records. *)
Lemma hoursBy_spec (l : list Schedule) :
  ownKeys (hoursBy host key label l) = firstAppearance (map key l)
  /\ forall id, In id (map key l) ->
       getOwn Z.eqb (hoursBy host key label l) id
       = Some (entryOf host key label l id).
Proof.
  induction l as [|s l [IHk IHv]] using rev_ind.
  - split; [reflexivity | intros id []].
  - rewrite hoursBy_snoc, map_app. simpl map. split.
    + rewrite accumulate_keys, firstAppearance_snoc, IHk.
      destruct (existsb (Z.eqb (key s)) (map key l)) eqn:Ex.
      * rewrite (proj2 (existsb_In _ _)); [reflexivity|].
        apply In_firstAppearance. now apply existsb_In.
      * destruct (existsb (Z.eqb (key s)) (firstAppearance (map key l))) eqn:Ey;
          [|reflexivity].
        apply (proj1 (existsb_In _ _)) in Ey. apply (proj1 (In_firstAppearance _ _)) in Ey.
        apply (proj2 (existsb_In _ _)) in Ey. congruence.
    + intros id Hin. unfold entryOf, nameOf, hoursOf.
      rewrite recordsOf_snoc.
      destruct (Z.eqb_spec (key s) id) as [<-|Hne].
      * rewrite accumulate_same.
        destruct (in_dec Z.eq_dec (key s) (map key l)) as [Hold|Hnew].
        -- rewrite (IHv _ Hold). unfold entryOf, nameOf, hoursOf. cbn [name hours].
           rewrite map_app. cbn [map]. rewrite sum_snoc.
           pose proof (@recordsOf_cons l (key s) Hold) as Hne.
           destruct (recordsOf key l (key s)); [congruence | reflexivity].
        -- assert (Hg : getOwn Z.eqb (hoursBy host key label l) (key s) = None).
           { apply (getOwn_None Z.eqb Z.eqb_eq). rewrite IHk.
             now rewrite In_firstAppearance. }
           rewrite Hg, (@recordsOf_nil l (key s) Hnew). reflexivity.
      * rewrite accumulate_other by exact Hne. rewrite app_nil_r.
        apply in_app_or in Hin as [Hin|[Heq|[]]]; [|congruence].
        now rewrite (IHv _ Hin).
Qed.

Lemma flat_map_singletons {A B} (f : A -> list B) (g : A -> B) (l : list A) :
  (forall a, In a l -> f a = [g a]) -> flat_map f l = map g l.
Proof.
  induction l as [|a l IH]; intros H; simpl; [reflexivity|].
  rewrite (H a (or_introl eq_refl)), IH; [reflexivity|].
  intros b Hb. apply H. now right.
Qed.

(** [Object.values] of that object *)
Lemma Object_values_hoursBy (l : list Schedule) :
  Object_values (hoursBy host key label l)
  = map (entryOf host key label l) (propertyOrder (firstAppearance (map key l))).
Proof.
  destruct (hoursBy_spec l) as [Hk Hv].
  unfold Object_values, OrdinaryOwnPropertyKeys. rewrite Hk.
  apply flat_map_singletons. intros id Hid.
  rewrite Hv; [reflexivity|].
  apply In_firstAppearance.
  eapply Permutation_in; [apply propertyOrder_perm | exact Hid].
Qed.
End WorkloadFacts.

Section StatisticsFacts.
Import JS ScheduleService Workload.
Variable host : Host.

Lemma tally_split (l : list Schedule) (acc : object Z Hours * object Z Hours) :
  fold_left (tally host) l acc
  = (fold_left (fun a s =>
                  accumulate a (teacher_id s) (teacher_name s)
                    (calculateDuration host (start_time s) (end_time s)))
               l (fst acc),
     fold_left (fun a s =>
                  accumulate a (class_id s) (class_name s)
                    (calculateDuration host (start_time s) (end_time s)))
               l (snd acc)).
Proof.
  revert acc. induction l as [|s l IH]; intros [a b]; simpl; [reflexivity|].
  rewrite IH. reflexivity.
Qed.

Lemma teacher_workload_order (l : list Schedule) :
  Statistics.teacher_workload (getScheduleStatistics host l)
  = map (teacherEntry host l)
        (propertyOrder (firstAppearance (map teacher_id l))).
Proof.
  unfold getScheduleStatistics. rewrite tally_split. cbn [fst snd Statistics.teacher_workload].
  fold (hoursBy host teacher_id teacher_name l).
  rewrite Object_values_hoursBy, map_map. reflexivity.
Qed.

Lemma class_coverage_order (l : list Schedule) :
  Statistics.class_coverage (getScheduleStatistics host l)
  = map (classEntry host l)
        (propertyOrder (firstAppearance (map class_id l))).
Proof.
  unfold getScheduleStatistics. rewrite tally_split. cbn [fst snd Statistics.class_coverage].
  fold (hoursBy host class_id class_name l).
  rewrite Object_values_hoursBy, map_map. reflexivity.
Qed.

Lemma propertyOrder_distinct (ids : list Z) :
  NoDup (propertyOrder (firstAppearance ids))
  /\ forall id, In id (propertyOrder (firstAppearance ids)) <-> In id ids.
Proof.
  split.
  - eapply Permutation_NoDup;
      [apply Permutation_sym, propertyOrder_perm | apply NoDup_firstAppearance].
  - intros id. split; intros H.
    + apply In_firstAppearance.
      eapply Permutation_in; [apply propertyOrder_perm | exact H].
    + eapply Permutation_in; [apply Permutation_sym, propertyOrder_perm|].
      now apply In_firstAppearance.
Qed.
End StatisticsFacts.

Section StatisticsClaims.
Import JS ScheduleService Workload.

(** C1: the workload of the teachers has one entry for each teacher
    identifier of the schedules, and no other: the identifiers of its
    entries are distinct and are those of the schedules.  The name of an
    entry is the teacher name of the first schedule of its identifier,
    and its hours are the sum of the durations of the schedules of its
    identifier.  The coverage of the classes is the same by class
    identifier.  Two schedules of teacher 7, the first in the name of
    Dupont, of durations 2 and 1, give the one entry Dupont with 3
    hours. *)
Theorem getScheduleStatistics_workload (host : Host) :
  (forall schedules,
      (exists ids,
          NoDup ids
          /\ (forall id, In id ids <-> In id (map teacher_id schedules))
          /\ Statistics.teacher_workload (getScheduleStatistics host schedules)
             = map (teacherEntry host schedules) ids)
      /\ (exists ids,
             NoDup ids
             /\ (forall id, In id ids <-> In id (map class_id schedules))
             /\ Statistics.class_coverage (getScheduleStatistics host schedules)
                = map (classEntry host schedules) ids))
  /\ (forall first second,
         teacher_id first = 7 -> teacher_id second = 7 ->
         teacher_name first = "Dupont" ->
         calculateDuration host (start_time first) (end_time first) = 2%float ->
         calculateDuration host (start_time second) (end_time second) = 1%float ->
         Statistics.teacher_workload (getScheduleStatistics host [first; second])
         = [ {| TeacherWorkload.teacher_name := "Dupont";
                TeacherWorkload.hours_per_week := 3%float |} ]).
Proof.
  split.
  - intros schedules. split.
    + exists (propertyOrder (firstAppearance (map teacher_id schedules))).
      destruct (propertyOrder_distinct (map teacher_id schedules)) as [Hn Hi].
      repeat split; try apply Hi; [exact Hn | apply teacher_workload_order].
    + exists (propertyOrder (firstAppearance (map class_id schedules))).
      destruct (propertyOrder_distinct (map class_id schedules)) as [Hn Hi].
      repeat split; try apply Hi; [exact Hn | apply class_coverage_order].
  - intros first second Hf Hs Hname Hd1 Hd2.
    rewrite teacher_workload_order. cbn [map]. rewrite Hf, Hs.
    change (propertyOrder (firstAppearance [7; 7])) with [7].
    cbn [map]. unfold teacherEntry, nameOf, hoursOf, recordsOf.
    cbn [filter]. rewrite Hf, Hs. cbn [Z.eqb Pos.eqb map].
    rewrite Hname, Hd1, Hd2. reflexivity.
Qed.

(** C1 at two schedules of teacher 7, from 08:00 to 10:00 and from 10:15
    to 11:15. *)
Lemma getScheduleStatistics_workload_witness :
  Statistics.teacher_workload
    (getScheduleStatistics Clock.douala
       [course 7 "Dupont" 1 "08:00" "10:00"; course 7 "Dupont" 2 "10:15" "11:15"])
  = [ {| TeacherWorkload.teacher_name := "Dupont";
         TeacherWorkload.hours_per_week := 3%float |} ].
Proof.
  apply (proj2 (getScheduleStatistics_workload Clock.douala)); reflexivity.
Defined.

(** C2 as it is stated fails: of a schedule of teacher 7 followed by a
    schedule of teacher 3, the workload lists teacher 3 first. *)
Lemma getScheduleStatistics_order_counterexample :
  ~ (forall host schedules,
       Statistics.teacher_workload (getScheduleStatistics host schedules)
       = map (teacherEntry host schedules)
             (firstAppearance (map teacher_id schedules))
       /\ Statistics.class_coverage (getScheduleStatistics host schedules)
          = map (classEntry host schedules)
                (firstAppearance (map class_id schedules))).
Proof.
  intros H.
  destruct (H Clock.douala
              [course 7 "Dupont" 1 "08:00" "10:00";
               course 3 "Martin" 1 "10:15" "12:15"]) as [Ht _].
  vm_compute in Ht. discriminate Ht.
Qed.

(** C2, amended: the workload of the teachers lists first the entries
    whose identifier is an array index (an integer from 0 to 2^32 - 2),
    by ascending identifier, and then the entries of the other
    identifiers in the order in which each identifier first appears in the
    schedules; the coverage of the classes likewise. *)
Theorem getScheduleStatistics_order (host : Host) (schedules : list Schedule) :
  let teachers := firstAppearance (map teacher_id schedules) in
  let classes := firstAppearance (map class_id schedules) in
  (exists indices,
      Permutation indices (filter isArrayIndex teachers)
      /\ StronglySorted Z.lt indices
      /\ Statistics.teacher_workload (getScheduleStatistics host schedules)
         = map (teacherEntry host schedules)
               (indices ++ filter (fun id => negb (isArrayIndex id)) teachers))
  /\ (exists indices,
         Permutation indices (filter isArrayIndex classes)
         /\ StronglySorted Z.lt indices
         /\ Statistics.class_coverage (getScheduleStatistics host schedules)
            = map (classEntry host schedules)
                  (indices ++ filter (fun id => negb (isArrayIndex id)) classes)).
Proof.
  intros teachers classes. split.
  - exists (ZSort.sort (filter isArrayIndex teachers)). split; [|split].
    + apply Permutation_sym, ZSort.Permuted_sort.
    + apply sort_ascending, NoDup_filter, NoDup_firstAppearance.
    + apply teacher_workload_order.
  - exists (ZSort.sort (filter isArrayIndex classes)). split; [|split].
    + apply Permutation_sym, ZSort.Permuted_sort.
    + apply sort_ascending, NoDup_filter, NoDup_firstAppearance.
    + apply class_coverage_order.
Qed.
End StatisticsClaims.

(* ================================================================= *)
(** * More of the grid *)

Section CellFacts.
Import JS ScheduleService Grid Cells.

Lemma plain_modelled (schedule : Schedule) : plain schedule -> modelled schedule.
Proof.
  intros [Hd Hs]. split; [exact Hd|]. intros Heq. rewrite Heq in Hs. discriminate Hs.
Qed.

Lemma find_append {A : Type} (f : A -> bool) (l1 l2 : list A) :
  find f (l1 ++ l2)
  = match find f l1 with Some a => Some a | None => find f l2 end.
Proof.
  induction l1 as [|a l1 IH]; simpl; [reflexivity|].
  destruct (f a); [reflexivity | exact IH].
Qed.

Lemma lastAt_snoc day name (l : list Schedule) (s : Schedule) :
  lastAt day name (l ++ [s])
  = if at_cell day name s then Some s else lastAt day name l.
Proof. unfold lastAt. rewrite rev_unit. reflexivity. Qed.

Lemma cellOf_shape (grid : Grid) day name :
  shape grid = catalogShape -> inCatalog day name = false ->
  cellOf grid day name = None.
Proof.
  intros Hshape Hout. unfold cellOf.
  destruct (getOwn String.eqb grid day) as [row|] eqn:Eg; [|reflexivity].
  pose proof (shape_row _ _ Eg) as Hin. rewrite Hshape in Hin.
  unfold catalogShape in Hin. apply in_map_iff in Hin as (d & [= Hday Hk] & Hd).
  subst d.
  apply (getOwn_None String.eqb String.eqb_eq). fold (Object_keys row).
  rewrite <- Hk. intros Hn. unfold inCatalog in Hout.
  apply andb_false_iff in Hout as [Hout|Hout];
    apply not_true_iff_false in Hout; apply Hout; apply existsb_exists;
    eexists; (split; [eassumption | apply String.eqb_refl]).
Qed.

(** On plain schedules: the grid, and what each cell holds. *)
Lemma formatWeeklyGrid_cells (schedules : list Schedule) :
  Forall plain schedules ->
  exists grid,
    formatWeeklyGrid schedules = Some grid
    /\ shape grid = catalogShape
    /\ forall day name,
        cellOf grid day name
        = if inCatalog day name then Some (lastAt day name schedules) else None.
Proof.
  induction schedules as [|s l IH] using rev_ind; intros Hall.
  - exists emptyGrid. split; [reflexivity|]. split; [reflexivity|].
    intros day name. destruct (inCatalog day name) eqn:Ein.
    + unfold inCatalog in Ein. apply andb_prop in Ein as [Hd Hn].
      apply existsb_exists in Hd as (d & Hd & Ed).
      apply existsb_exists in Hn as (n & Hn & En).
      apply String.eqb_eq in Ed, En. subst d n.
      now apply emptyGrid_cell.
    + now apply cellOf_shape.
  - apply Forall_app in Hall as [Hl Hs]. inversion Hs as [|? ? Hplain _]; subst.
    destruct (IH Hl) as (g & Hg & Hshape & Hcells).
    destruct (place_modelled g (plain_modelled Hplain)) as (g' & Hp & Hc').
    destruct (place_plain g Hplain) as (g'' & Hp' & Hshape').
    assert (g'' = g') by congruence. subst g''.
    exists g'. split.
    { unfold formatWeeklyGrid in *. rewrite populate_app, Hg. simpl. now rewrite Hp. }
    split; [congruence|].
    intros day name. rewrite Hc', Hcells, lastAt_snoc.
    rewrite (accepts_plain _ Hshape Hplain).
    unfold at_cell.
    destruct (String.eqb (day_of_week s) day) eqn:Ed;
      [|rewrite andb_false_r; reflexivity].
    destruct (String.eqb (start_time s) name) eqn:En;
      [|rewrite andb_false_r; reflexivity].
    apply String.eqb_eq in Ed, En. subst day name.
    fold (inCatalog (day_of_week s) (start_time s)).
    destruct (inCatalog (day_of_week s) (start_time s)); reflexivity.
Qed.
End CellFacts.

Section CellExtras.
Import JS ScheduleService Grid Cells.

(** X2: of schedules whose day and start time name no property of
    [%Object.prototype%], the grid has a cell for each day and slot of the
    catalog and no other; the cell holds the last schedule of the list
    with that day and that start time, and [null] when there is none. *)
Theorem formatWeeklyGrid_holds_last (schedules : list Schedule) :
  Forall plain schedules ->
  exists grid,
    formatWeeklyGrid schedules = Some grid
    /\ forall day name,
        cellOf grid day name
        = if inCatalog day name then Some (lastAt day name schedules) else None.
Proof.
  intros Hall. destruct (formatWeeklyGrid_cells Hall) as (g & Hg & _ & Hc).
  now exists g.
Qed.

(** X2 at a list with two schedules on Monday at 08:00 and one on a day
    that the catalog does not have. *)
Lemma formatWeeklyGrid_holds_last_witness :
  exists grid,
    formatWeeklyGrid [lesson "MONDAY" "08:00"; lesson "SUNDAY" "08:00";
                      Workload.course 3 "Martin" 2 "08:00" "10:00"]
    = Some grid
    /\ forall day name,
        cellOf grid day name
        = if inCatalog day name
          then Some (lastAt day name
                       [lesson "MONDAY" "08:00"; lesson "SUNDAY" "08:00";
                        Workload.course 3 "Martin" 2 "08:00" "10:00"])
          else None.
Proof.
  apply formatWeeklyGrid_holds_last.
  repeat constructor.
Defined.

(** X3: the grid of two lists, one after the other, is the grid of the
    later list laid over the grid of the earlier one: a cell holds what
    the later list puts there, and what the earlier list puts there when
    the later list puts nothing. *)
Theorem formatWeeklyGrid_app (earlier later : list Schedule) :
  Forall plain earlier -> Forall plain later ->
  exists below above grid,
    formatWeeklyGrid earlier = Some below
    /\ formatWeeklyGrid later = Some above
    /\ formatWeeklyGrid (earlier ++ later) = Some grid
    /\ forall day name,
        cellOf grid day name
        = over (cellOf above day name) (cellOf below day name).
Proof.
  intros He Hl.
  destruct (formatWeeklyGrid_cells He) as (g1 & Hg1 & _ & Hc1).
  destruct (formatWeeklyGrid_cells Hl) as (g2 & Hg2 & _ & Hc2).
  destruct (formatWeeklyGrid_cells (proj2 (Forall_app _ _ _) (conj He Hl)))
    as (g & Hg & _ & Hc).
  exists g1, g2, g. repeat split; try assumption.
  intros day name. rewrite Hc, Hc1, Hc2.
  destruct (inCatalog day name); [|reflexivity].
  unfold lastAt, over. rewrite rev_app_distr, find_append.
  destruct (find (at_cell day name) (rev later)); reflexivity.
Qed.

(** X3 at one schedule on Monday at 08:00, followed by another. *)
Lemma formatWeeklyGrid_app_witness :
  exists below above grid,
    formatWeeklyGrid [lesson "MONDAY" "08:00"] = Some below
    /\ formatWeeklyGrid [Workload.course 3 "Martin" 2 "08:00" "10:00"] = Some above
    /\ formatWeeklyGrid ([lesson "MONDAY" "08:00"]
                           ++ [Workload.course 3 "Martin" 2 "08:00" "10:00"])
       = Some grid
    /\ forall day name,
        cellOf grid day name
        = over (cellOf above day name) (cellOf below day name).
Proof.
  apply formatWeeklyGrid_app; repeat constructor.
Defined.
End CellExtras.

(* ================================================================= *)
(** * More of the statistics *)

Section CountFacts.
Import JS ScheduleService Grid Counts Workload.
Variable host : Host.

Lemma schedules_by_day_entries (l : list Schedule) :
  Statistics.schedules_by_day (getScheduleStatistics host l)
  = map (fun day => (day, onDay day l)) days.
Proof.
  unfold getScheduleStatistics. rewrite tally_split. reflexivity.
Qed.

Lemma total_schedules_length (l : list Schedule) :
  Statistics.total_schedules (getScheduleStatistics host l)
  = Z.of_nat (List.length l).
Proof.
  unfold getScheduleStatistics. rewrite tally_split. reflexivity.
Qed.

(** Every schedule is of one day of the catalog or of none. *)
Lemma days_partition_nat (l : list Schedule) :
  List.length l
  = (fold_right Nat.add 0
       (map (fun day =>
               List.length (filter (fun s => String.eqb (day_of_week s) day) l))
            days)
     + List.length
         (filter (fun s => negb (existsb (String.eqb (day_of_week s)) days)) l))%nat.
Proof.
  unfold days. cbn [map DAYS_OF_WEEK value fold_right existsb].
  induction l as [|s l IH]; [reflexivity|].
  cbn [filter].
  destruct (String.eqb_spec (day_of_week s) "MONDAY") as [->|];
    [simpl; lia|].
  destruct (String.eqb_spec (day_of_week s) "TUESDAY") as [->|];
    [simpl; lia|].
  destruct (String.eqb_spec (day_of_week s) "WEDNESDAY") as [->|];
    [simpl; lia|].
  destruct (String.eqb_spec (day_of_week s) "THURSDAY") as [->|];
    [simpl; lia|].
  destruct (String.eqb_spec (day_of_week s) "FRIDAY") as [->|];
    [simpl; lia|].
  destruct (String.eqb_spec (day_of_week s) "SATURDAY") as [E|];
    [simpl; lia|].
  simpl. lia.
Qed.

(** Every schedule is of one day of the catalog or of none. *)
Lemma days_partition (l : list Schedule) :
  Z.of_nat (List.length l)
  = total (map (fun day => (day, onDay day l)) days) + offCatalog l.
Proof.
  rewrite (days_partition_nat l) at 1.
  unfold total, offCatalog, onDay, days.
  cbn [map DAYS_OF_WEEK value snd fold_right]. lia.
Qed.
End CountFacts.

Section CountExtras.
Import JS ScheduleService Grid Counts.

(** X1: the counts by day have the six days of the catalog for keys, in
    the order of the catalog; the count of a day is the number of schedules
    of that day; and the total is the sum of the six counts and of the
    number of schedules whose day is no day of the catalog. *)
Theorem getScheduleStatistics_by_day (host : Host) (schedules : list Schedule) :
  let stats := getScheduleStatistics host schedules in
  ownKeys (Statistics.schedules_by_day stats) = days
  /\ (forall day, In day days ->
        getOwn String.eqb (Statistics.schedules_by_day stats) day
        = Some (onDay day schedules))
  /\ Statistics.total_schedules stats
     = total (Statistics.schedules_by_day stats) + offCatalog schedules.
Proof.
  intros stats. unfold stats.
  rewrite schedules_by_day_entries, total_schedules_length.
  split; [|split].
  - unfold ownKeys. rewrite map_map. apply map_id.
  - unfold days; simpl. intros day Hd.
    repeat (destruct Hd as [<-|Hd]; [reflexivity|]). destruct Hd.
  - apply days_partition.
Qed.
End CountExtras.


Section DurationFacts.
Import JS ScheduleService Clock Backwards.

Lemma hoursOfMinutes_signed_all : forallb signed differences = true.
Proof. vm_compute. reflexivity. Qed.

Lemma hoursOfMinutes_signed (d : Z) : -1440 < d < 1440 -> signed d = true.
Proof.
  intros Hd. pose proof hoursOfMinutes_signed_all as Hall.
  rewrite forallb_forall in Hall. apply Hall.
  unfold differences. apply in_map_iff. exists (d + 1439).
  split; [lia | apply In_range; lia].
Qed.

Lemma is_nan_spec (x : number) : is_nan x = true <-> Prim2SF x = S754_nan.
Proof.
  unfold is_nan. rewrite eqb_spec. unfold SFeqb.
  destruct (Prim2SF x) as [s|s| |s m e].
  - split; discriminate.
  - destruct s; split; discriminate.
  - simpl. tauto.
  - rewrite (SFcompare_self s m e). split; discriminate.
Qed.

Lemma add_nan (x y : number) :
  is_nan x = true \/ is_nan y = true -> is_nan (x + y)%float = true.
Proof.
  rewrite !is_nan_spec, add_spec. unfold SF64add, SFadd.
  intros [->| ->]; [reflexivity|]. now destruct (Prim2SF x).
Qed.

Lemma div_nan (x y : number) : is_nan x = true -> is_nan (x / y)%float = true.
Proof.
  rewrite !is_nan_spec, div_spec. unfold SF64div, SFdiv. now intros ->.
Qed.

Lemma sum_nan (xs : list number) :
  (exists x, In x xs /\ is_nan x = true) -> is_nan (Workload.sum xs) = true.
Proof.
  unfold Workload.sum.
  assert (H : forall acc,
             is_nan acc = true \/ (exists x, In x xs /\ is_nan x = true) ->
             is_nan (fold_left (fun t x => (t + x)%float) xs acc) = true).
  { induction xs as [|a xs IH]; intros acc [Hacc|(x & Hin & Hx)]; simpl.
    - exact Hacc.
    - destruct Hin.
    - apply IH. left. apply add_nan. now left.
    - destruct Hin as [->|Hin].
      + apply IH. left. apply add_nan. now right.
      + apply IH. right. now exists x. }
  intros Hex. apply H. now right.
Qed.

Lemma calculateDuration_unread (host : Host) (startTime endTime : string) :
  getTime host startTime = None \/ getTime host endTime = None ->
  is_nan (calculateDuration host startTime endTime) = true.
Proof.
  intros H. unfold calculateDuration. apply div_nan.
  destruct H as [-> | ->]; [|destruct (getTime host startTime)];
    try reflexivity.
  destruct (getTime host endTime); reflexivity.
Qed.
End DurationFacts.

Section DurationExtras.
Import JS ScheduleService Clock Workload.

(** X4: [calculateDuration] does not refuse an end before the start.  For
    two times of the clock it answers 0 when they are the same, a number
    below zero when the end is before the start, which is the opposite of
    the duration from the end to the start, and a number above zero
    otherwise. *)
Theorem calculateDuration_backwards (host : Host) (h1 m1 h2 m2 : Z) :
  onTheClock h1 m1 -> onTheClock h2 m2 ->
  let forwards := calculateDuration host (HHMM h1 m1) (HHMM h2 m2) in
  let backwards := calculateDuration host (HHMM h2 m2) (HHMM h1 m1) in
  (minutes h2 m2 = minutes h1 m1 -> forwards = 0%float)
  /\ (minutes h2 m2 < minutes h1 m1 ->
      (forwards <? 0)%float = true /\ forwards = (- backwards)%float)
  /\ (minutes h1 m1 < minutes h2 m2 -> (0 <? forwards)%float = true).
Proof.
  intros H1 H2 forwards backwards. unfold forwards, backwards.
  rewrite !calculateDuration_HHMM by assumption.
  assert (Hd : -1440 < minutes h2 m2 - minutes h1 m1 < 1440)
    by (unfold onTheClock, minutes in *; lia).
  pose proof (@hoursOfMinutes_signed _ Hd) as Hs. unfold Backwards.signed in Hs.
  split; [|split]; intros Hm.
  - replace (minutes h2 m2 - minutes h1 m1) with 0 in * by lia.
    reflexivity.
  - destruct (minutes h2 m2 - minutes h1 m1 =? 0) eqn:E0;
      [apply Z.eqb_eq in E0; lia|].
    destruct (minutes h2 m2 - minutes h1 m1 <? 0) eqn:E1;
      [|apply Z.ltb_ge in E1; lia].
    apply andb_prop in Hs as [Hneg Heq]. split; [exact Hneg|].
    apply FloatAxioms.Leibniz.eqb_spec in Heq. rewrite Heq.
    do 2 f_equal. lia.
  - destruct (minutes h2 m2 - minutes h1 m1 =? 0) eqn:E0;
      [apply Z.eqb_eq in E0; lia|].
    destruct (minutes h2 m2 - minutes h1 m1 <? 0) eqn:E1;
      [apply Z.ltb_lt in E1; lia | exact Hs].
Qed.

(** X4 from 10:00 back to 08:00. *)
Lemma calculateDuration_backwards_witness :
  (minutes 8 0 = minutes 10 0 ->
   calculateDuration douala "10:00" "08:00" = 0%float)
  /\ (minutes 8 0 < minutes 10 0 ->
      (calculateDuration douala "10:00" "08:00" <? 0)%float = true
      /\ calculateDuration douala "10:00" "08:00"
         = (- calculateDuration douala "08:00" "10:00")%float)
  /\ (minutes 10 0 < minutes 8 0 ->
      (0 <? calculateDuration douala "10:00" "08:00")%float = true).
Proof.
  apply (@calculateDuration_backwards douala 10 0 8 0);
    unfold onTheClock; lia.
Defined.

(** X5: when [Date] cannot read the start time or the end time of one
    schedule, the hours of the teacher of that schedule and of its class
    are [NaN] in the statistics, whatever the other schedules are. *)
Theorem getScheduleStatistics_unread_time (host : Host)
        (schedules : list Schedule) (schedule : Schedule) :
  In schedule schedules ->
  getTime host (start_time schedule) = None
  \/ getTime host (end_time schedule) = None ->
  let stats := getScheduleStatistics host schedules in
  (exists entry,
      In entry (Statistics.teacher_workload stats)
      /\ TeacherWorkload.teacher_name entry
         = nameOf teacher_id teacher_name schedules (teacher_id schedule)
      /\ is_nan (TeacherWorkload.hours_per_week entry) = true)
  /\ (exists entry,
         In entry (Statistics.class_coverage stats)
         /\ ClassCoverage.class_name entry
            = nameOf class_id class_name schedules (class_id schedule)
         /\ is_nan (ClassCoverage.hours_per_week entry) = true).
Proof.
  intros Hin Hnone stats. unfold stats.
  assert (Hsum : forall key, is_nan (hoursOf host key schedules (key schedule)) = true).
  { intros key. unfold hoursOf. apply sum_nan.
    exists (calculateDuration host (start_time schedule) (end_time schedule)).
    split; [|now apply calculateDuration_unread].
    apply in_map_iff. exists schedule. split; [reflexivity|].
    apply filter_In. split; [exact Hin | apply Z.eqb_refl]. }
  split.
  - exists (teacherEntry host schedules (teacher_id schedule)).
    split; [|split; [reflexivity | apply Hsum]].
    rewrite teacher_workload_order. apply in_map.
    apply propertyOrder_distinct. now apply in_map.
  - exists (classEntry host schedules (class_id schedule)).
    split; [|split; [reflexivity | apply Hsum]].
    rewrite class_coverage_order. apply in_map.
    apply propertyOrder_distinct. now apply in_map.
Qed.

(** X5 at a schedule from [8h] to [10h], after one from 08:00 to 10:00. *)
Lemma getScheduleStatistics_unread_time_witness :
  let stats :=
    getScheduleStatistics douala
      [course 7 "Dupont" 1 "08:00" "10:00"; course 7 "Dupont" 2 "8h" "10h"] in
  (exists entry,
      In entry (Statistics.teacher_workload stats)
      /\ TeacherWorkload.teacher_name entry
         = nameOf teacher_id teacher_name
             [course 7 "Dupont" 1 "08:00" "10:00"; course 7 "Dupont" 2 "8h" "10h"]
             (teacher_id (course 7 "Dupont" 2 "8h" "10h"))
      /\ is_nan (TeacherWorkload.hours_per_week entry) = true)
  /\ (exists entry,
         In entry (Statistics.class_coverage stats)
         /\ ClassCoverage.class_name entry
            = nameOf class_id class_name
                [course 7 "Dupont" 1 "08:00" "10:00"; course 7 "Dupont" 2 "8h" "10h"]
                (class_id (course 7 "Dupont" 2 "8h" "10h"))
         /\ is_nan (ClassCoverage.hours_per_week entry) = true).
Proof.
  apply (@getScheduleStatistics_unread_time douala
           [course 7 "Dupont" 1 "08:00" "10:00"; course 7 "Dupont" 2 "8h" "10h"]
           (course 7 "Dupont" 2 "8h" "10h")).
  - simpl; tauto.
  - left; reflexivity.
Defined.
End DurationExtras.

(* ================================================================= *)
(** * More of the validator *)

Section YearFacts.
Import JS ScheduleService Rules Clock Years.

Lemma isDigit_digitChar (n : Z) : 0 <= n <= 9 -> isDigit (digitChar n) = true.
Proof.
  intros Hn. unfold isDigit, digitChar.
  rewrite N_ascii_embedding by lia. rewrite Z2N.id by lia.
  apply andb_true_intro. split; apply Z.leb_le; lia.
Qed.

Lemma year_digits (y : Z) :
  0 <= y <= 9999 ->
  0 <= y / 1000 <= 9 /\ 0 <= y / 100 mod 10 <= 9
  /\ 0 <= y / 10 mod 10 <= 9 /\ 0 <= y mod 10 <= 9.
Proof.
  intros Hy.
  pose proof (Z.mod_pos_bound (y / 100) 10 ltac:(lia)).
  pose proof (Z.mod_pos_bound (y / 10) 10 ltac:(lia)).
  pose proof (Z.mod_pos_bound y 10 ltac:(lia)).
  pose proof (Z.div_pos y 1000 ltac:(lia) ltac:(lia)).
  pose proof (Z.div_lt_upper_bound y 1000 10 ltac:(lia) ltac:(lia)).
  lia.
Qed.

(** Two years in four digits each, with the dash, match the pattern. *)
Lemma yearPattern_test_academicYear (first second : Z) :
  0 <= first <= 9999 -> 0 <= second <= 9999 ->
  yearPattern_test (academicYear first second) = true.
Proof.
  intros Hf Hs.
  destruct (year_digits Hf) as (F1 & F2 & F3 & F4).
  destruct (year_digits Hs) as (S1 & S2 & S3 & S4).
  unfold yearPattern_test, academicYear, pad4.
  cbn [append list_ascii_of_string forallb].
  rewrite !isDigit_digitChar by assumption. reflexivity.
Qed.
End YearFacts.

Section ValidatorExtras.
Import JS ScheduleService Rules Clock Years.

(** X6: the validator does not compare the two years of an academic
    year: any two years of four digits, with the dash, give no error. *)
Theorem validateScheduleData_any_years (data : UpdateScheduleRequest.t)
        (first second : Z) :
  0 <= first <= 9999 -> 0 <= second <= 9999 ->
  UpdateScheduleRequest.academic_year data = Some (academicYear first second) ->
  ~ In yearMessage (Validation.errors (validateScheduleData data)).
Proof.
  intros Hf Hs Hy. rewrite (In_errors data YearRule). unfold violated.
  rewrite Hy, (yearPattern_test_academicYear Hf Hs), andb_false_r. discriminate.
Qed.

(** X6 at the academic year 2025-1999. *)
Lemma validateScheduleData_any_years_witness :
  ~ In yearMessage
      (Validation.errors
         (validateScheduleData
            {| UpdateScheduleRequest.class_id := None;
               UpdateScheduleRequest.teacher_id := None;
               UpdateScheduleRequest.subject_id := None;
               UpdateScheduleRequest.day_of_week := None;
               UpdateScheduleRequest.start_time := None;
               UpdateScheduleRequest.end_time := None;
               UpdateScheduleRequest.academic_year := Some "2025-1999";
               UpdateScheduleRequest.semester := None |})).
Proof.
  apply (@validateScheduleData_any_years _ 2025 1999); [lia | lia | reflexivity].
Defined.

(** X7: a request is valid, with no error, when each field that it holds
    is well formed: references above zero, a day of the catalog, two times
    of the clock with the start before the end, two years of four digits
    with the dash, the semester S1 or S2. *)
Theorem validateScheduleData_well_formed (data : UpdateScheduleRequest.t) :
  (forall x, UpdateScheduleRequest.class_id data = Some x -> (0 <? x)%float = true) ->
  (forall x, UpdateScheduleRequest.teacher_id data = Some x -> (0 <? x)%float = true) ->
  (forall x, UpdateScheduleRequest.subject_id data = Some x -> (0 <? x)%float = true) ->
  (forall day, UpdateScheduleRequest.day_of_week data = Some day ->
               In day (map value DAYS_OF_WEEK)) ->
  (forall s e,
      UpdateScheduleRequest.start_time data = Some s ->
      UpdateScheduleRequest.end_time data = Some e ->
      exists h1 m1 h2 m2,
        onTheClock h1 m1 /\ onTheClock h2 m2
        /\ s = HHMM h1 m1 /\ e = HHMM h2 m2
        /\ minutes h1 m1 < minutes h2 m2) ->
  (forall y, UpdateScheduleRequest.academic_year data = Some y ->
             exists first second,
               0 <= first <= 9999 /\ 0 <= second <= 9999
               /\ y = academicYear first second) ->
  (forall s, UpdateScheduleRequest.semester data = Some s -> s = "S1" \/ s = "S2") ->
  validateScheduleData data
  = {| Validation.isValid := true; Validation.errors := [] |}.
Proof.
  intros Hc Ht Hs Hd Htime Hy Hsem.
  assert (Hnone : forall rule, violated rule data = false).
  { intros rule. destruct rule; unfold violated.
    - destruct (UpdateScheduleRequest.class_id data) as [x|]; [|reflexivity].
      now rewrite missing_not_positive, (Hc x eq_refl).
    - destruct (UpdateScheduleRequest.teacher_id data) as [x|]; [|reflexivity].
      now rewrite missing_not_positive, (Ht x eq_refl).
    - destruct (UpdateScheduleRequest.subject_id data) as [x|]; [|reflexivity].
      now rewrite missing_not_positive, (Hs x eq_refl).
    - destruct (UpdateScheduleRequest.day_of_week data) as [day|]; [|reflexivity].
      apply negb_false_iff, existsb_exists. exists day.
      split; [now apply Hd | apply String.eqb_refl].
    - destruct (UpdateScheduleRequest.start_time data) as [s|]; [|reflexivity].
      destruct (UpdateScheduleRequest.end_time data) as [e|]; [|reflexivity].
      destruct (Htime s e eq_refl eq_refl)
        as (h1 & m1 & h2 & m2 & H1 & H2 & -> & -> & Hlt).
      unfold string_ge. rewrite (HHMM_order H1 H2).
      apply Z.ltb_lt in Hlt. rewrite Hlt. now rewrite andb_false_r.
    - destruct (UpdateScheduleRequest.academic_year data) as [y|]; [|reflexivity].
      destruct (Hy y eq_refl) as (a & b & Ha & Hb & ->).
      now rewrite (yearPattern_test_academicYear Ha Hb), andb_false_r.
    - destruct (UpdateScheduleRequest.semester data) as [s|]; [|reflexivity].
      destruct (Hsem s eq_refl) as [-> | ->]; reflexivity. }
  assert (He : Validation.errors (validateScheduleData data) = []).
  { rewrite validateScheduleData_errors. unfold declared. cbn [filter].
    now rewrite !Hnone. }
  pose proof (proj2 (isValid_errors data) He) as Hv.
  destruct (validateScheduleData data) as [v errs]. simpl in *. now subst.
Qed.

(** X7 at a request with all its fields. *)
Lemma validateScheduleData_well_formed_witness :
  validateScheduleData
    {| UpdateScheduleRequest.class_id := Some 5%float;
       UpdateScheduleRequest.teacher_id := Some 7%float;
       UpdateScheduleRequest.subject_id := Some 2%float;
       UpdateScheduleRequest.day_of_week := Some "FRIDAY";
       UpdateScheduleRequest.start_time := Some "10:15";
       UpdateScheduleRequest.end_time := Some "12:15";
       UpdateScheduleRequest.academic_year := Some "2024-2025";
       UpdateScheduleRequest.semester := Some "S2" |}
  = {| Validation.isValid := true; Validation.errors := [] |}.
Proof.
  apply validateScheduleData_well_formed; simpl.
  - intros x [= <-]. reflexivity.
  - intros x [= <-]. reflexivity.
  - intros x [= <-]. reflexivity.
  - intros day [= <-]. simpl. tauto.
  - intros s e [= <-] [= <-]. exists 10, 15, 12, 15.
    unfold onTheClock, minutes. repeat split; lia.
  - intros y [= <-]. exists 2024, 2025. repeat split; lia.
  - intros s [= <-]. now right.
Defined.
End ValidatorExtras.

(* ================================================================= *)
(** * The requests and their errors *)


Section StringFacts.
Lemma append_cancel (p a b : string) : (p ++ a = p ++ b)%string -> a = b.
Proof. induction p as [|c p IH]; simpl; [auto|]. intros [= H]. auto. Qed.

Lemma chars_append (a b : string) :
  list_ascii_of_string (a ++ b) = list_ascii_of_string a ++ list_ascii_of_string b.
Proof. induction a as [|c a IH]; simpl; [reflexivity|]. now rewrite IH. Qed.

Lemma concat_empty_cons (x : string) (l : list string) :
  String.concat "" (x :: l) = (x ++ String.concat "" l)%string.
Proof.
  destruct l as [|y l]; simpl; [|reflexivity].
  induction x as [|c x IH]; simpl; [reflexivity|]. now rewrite <- IH.
Qed.

Lemma concat_empty_app (l1 l2 : list string) :
  String.concat "" (l1 ++ l2)
  = (String.concat "" l1 ++ String.concat "" l2)%string.
Proof.
  induction l1 as [|x l1 IH]; [reflexivity|].
  rewrite <- app_comm_cons, !concat_empty_cons, IH.
  induction x as [|c x IHx]; simpl; [reflexivity|]. now rewrite IHx.
Qed.
End StringFacts.

Section NumberFacts.
Import JS.

Lemma Number_toString_injective (a b : Z) :
  Number_toString a = Number_toString b -> a = b.
Proof.
  unfold Number_toString. intros H.
  assert (Hn : forall z, Z.to_int z <> Decimal.Pos Decimal.Nil
                         /\ Z.to_int z <> Decimal.Neg Decimal.Nil).
  { intros [|p|p]; simpl; split; try discriminate;
      intros [= E]; now apply (Unsigned.to_uint_nonnil p). }
  apply (f_equal NilZero.int_of_string) in H.
  rewrite !NilZero.isi in H by apply Hn.
  injection H as H. apply (f_equal Z.of_int) in H.
  now rewrite !DecimalZ.of_to in H.
Qed.

(** A decimal numeral begins with a digit or with the minus sign. *)
Lemma Number_toString_head (z : Z) :
  exists c rest,
    Number_toString z = String c rest
    /\ (isDigit c = true \/ c = "-"%char).
Proof.
  assert (Hu : forall d, d <> Decimal.Nil ->
             exists c rest, NilZero.string_of_uint d = String c rest
                            /\ isDigit c = true).
  { intros d Hd. destruct d; try contradiction; simpl;
      eexists; eexists; (split; [reflexivity|reflexivity]). }
  unfold Number_toString. destruct z as [|p|p]; simpl.
  - exists "0"%char, "". split; [reflexivity | now left].
  - destruct (Hu _ (Unsigned.to_uint_nonnil p)) as (c & rest & E & Hc).
    exists c, rest. split; [exact E | now left].
  - eexists; eexists. split; [reflexivity | now right].
Qed.
End NumberFacts.

Section QueryFacts.
Import JS ScheduleService Query Occurrences.

Lemma append_empty (s : string) : (s ++ "")%string = s.
Proof. induction s as [|c s IH]; simpl; [reflexivity|]. now rewrite IH. Qed.

Lemma append_associative (a b c : string) :
  ((a ++ b) ++ c)%string = (a ++ (b ++ c))%string.
Proof. induction a as [|x a IH]; simpl; [reflexivity|]. now rewrite IH. Qed.

Lemma percentEncode_written (byte : ascii) :
  forallb written (list_ascii_of_string (percentEncode byte)) = true.
Proof. destruct byte as [[] [] [] [] [] [] [] []]; reflexivity. Qed.

(** The serializer writes letters, digits and [*-._+%] only. *)
Lemma urlencode_written (s : string) :
  forallb written (list_ascii_of_string (urlencode s)) = true.
Proof.
  unfold urlencode.
  induction (flat_map utf8 (list_ascii_of_string s)) as [|b l IH];
    [reflexivity|].
  cbn [map]. rewrite concat_empty_cons, chars_append, forallb_app.
  now rewrite percentEncode_written, IH.
Qed.

Lemma occurrences_append (c : ascii) (a b : string) :
  occurrences c (a ++ b) = (occurrences c a + occurrences c b)%nat.
Proof.
  unfold occurrences. now rewrite chars_append, filter_app, length_app.
Qed.

Lemma occurrences_urlencode (c : ascii) (s : string) :
  written c = false -> occurrences c (urlencode s) = 0%nat.
Proof.
  intros Hc. unfold occurrences.
  pose proof (urlencode_written s) as Hw.
  induction (list_ascii_of_string (urlencode s)) as [|x l IH]; [reflexivity|].
  simpl in Hw. apply andb_prop in Hw as [Hx Hl]. simpl.
  destruct (Ascii.eqb_spec c x) as [->|]; [congruence | now apply IH].
Qed.

(** A character that stands for itself in a query. *)
Lemma urlencode_plain (s : string) :
  forallb (fun c => isAlphanumeric c
                    || existsb (Ascii.eqb c) ["*"; "-"; "."; "_"]%char)
          (list_ascii_of_string s) = true ->
  urlencode s = s.
Proof.
  unfold urlencode. induction s as [|c s IH]; [reflexivity|].
  cbn [list_ascii_of_string forallb flat_map]. intros H.
  apply andb_prop in H as [Hc Hs].
  rewrite map_app, concat_empty_app, (IH Hs).
  replace (String.concat "" (map percentEncode (utf8 c))) with (String c "");
    [reflexivity|].
  revert Hc. clear.
  destruct c as [[] [] [] [] [] [] [] []]; intros H;
    solve [reflexivity | discriminate H].
Qed.

Lemma isDigit_plain (c : ascii) :
  isDigit c = true ->
  isAlphanumeric c || existsb (Ascii.eqb c) ["*"; "-"; "."; "_"]%char = true.
Proof.
  destruct c as [[] [] [] [] [] [] [] []]; intros H;
    solve [reflexivity | discriminate H].
Qed.

Lemma getClassSchedule_url base storage (classId : Z) semester academicYear :
  HttpRequest.url (getClassSchedule base storage classId semester academicYear)
  = (apiUrl base ++ "/class/" ++ Number_toString classId
       ++ query semester academicYear)%string.
Proof.
  unfold getClassSchedule, query, given, URLSearchParams_append,
    URLSearchParams_toString.
  cbn [HttpRequest.url].
  destruct semester as [s|]; [destruct (truthy_string s)|];
    (destruct academicYear as [y|]; [destruct (truthy_string y)|]);
    cbn [app map fst snd String.concat];
    change (urlencode "semester") with "semester";
    change (urlencode "academic_year") with "academic_year";
    cbn [append truthy_string String.eqb negb];
    rewrite ?append_empty, ?append_associative; cbn [append]; reflexivity.
Qed.

Lemma getTeacherSchedule_url base storage (teacherId : Z) semester academicYear :
  HttpRequest.url (getTeacherSchedule base storage teacherId semester academicYear)
  = (apiUrl base ++ "/teacher/" ++ Number_toString teacherId
       ++ query semester academicYear)%string.
Proof.
  unfold getTeacherSchedule, query, given, URLSearchParams_append,
    URLSearchParams_toString.
  cbn [HttpRequest.url].
  destruct semester as [s|]; [destruct (truthy_string s)|];
    (destruct academicYear as [y|]; [destruct (truthy_string y)|]);
    cbn [app map fst snd String.concat];
    change (urlencode "semester") with "semester";
    change (urlencode "academic_year") with "academic_year";
    cbn [append truthy_string String.eqb negb];
    rewrite ?append_empty, ?append_associative; cbn [append]; reflexivity.
Qed.
End QueryFacts.

Section RequestExtras.
Import JS ScheduleService Query Occurrences.

(** X8: the message that [handleError] gives is never a falsy value: not
    the empty string, not [undefined], not [null]. *)
Theorem handleError_truthy (error : HttpErrorResponse.t) :
  ToBoolean (handleError error) = true.
Proof.
  unfold handleError.
  destruct (ToBoolean (optional_member (HttpErrorResponse.error error) "error")) eqn:E1;
    [exact E1|].
  destruct (ToBoolean (optional_member (HttpErrorResponse.error error) "message")) eqn:E2;
    [exact E2|].
  destruct (truthy_string (HttpErrorResponse.message error)) eqn:E3;
    [exact E3 | reflexivity].
Qed.

(** X9: a body of the response that is not an object (a text, a number,
    an array, [null]) is not shown: the message is that of the response
    itself, and the default message when that one is empty. *)
Theorem handleError_body_not_object (error : HttpErrorResponse.t) :
  (forall properties, HttpErrorResponse.error error <> V_object properties) ->
  handleError error
  = if truthy_string (HttpErrorResponse.message error)
    then V_string (HttpErrorResponse.message error)
    else V_string "Une erreur est survenue".
Proof.
  intros Hbody. unfold handleError.
  destruct (HttpErrorResponse.error error) as [| | b | x | s | items | properties];
    try reflexivity.
  now destruct (Hbody properties).
Qed.

(** X9 at the body ["Not Found"]. *)
Lemma handleError_body_not_object_witness :
  handleError {| HttpErrorResponse.error := V_string "Not Found";
                 HttpErrorResponse.message := "Http failure response: 404" |}
  = if truthy_string "Http failure response: 404"
    then V_string "Http failure response: 404"
    else V_string "Une erreur est survenue".
Proof.
  apply (@handleError_body_not_object
           {| HttpErrorResponse.error := V_string "Not Found";
              HttpErrorResponse.message := "Http failure response: 404" |}).
  intros properties. discriminate.
Defined.

(** X10: every request carries the one header [Authorization], which
    reads [Bearer] and then the token that [localStorage] holds under
    [school_auth_token]; with no token there it reads [Bearer null].  So
    two contents of [localStorage] give the same headers exactly when they
    hold the same token, or when one holds no token and the other the
    token ["null"]. *)
Theorem getAuthHeaders_bearer (storage storage' : Storage) :
  (forall token,
      getItem storage "school_auth_token" = Some token ->
      getAuthHeaders storage = [("Authorization", ("Bearer " ++ token)%string)])
  /\ (getItem storage "school_auth_token" = None ->
      getAuthHeaders storage = [("Authorization", "Bearer null")])
  /\ (forall base render id data semester academicYear excludeId,
        Forall (fun request =>
                  HttpRequest.headers request = getAuthHeaders storage)
               [ getAllSchedules base storage;
                 getSchedule base storage id;
                 createSchedule base storage data;
                 updateSchedule base storage id data;
                 deleteSchedule base storage id;
                 getClassSchedule base storage id semester academicYear;
                 getTeacherSchedule base storage id semester academicYear;
                 checkConflicts base storage render data excludeId ])
  /\ (getAuthHeaders storage = getAuthHeaders storage'
      <-> getToken storage = getToken storage'
          \/ (getToken storage = None /\ getToken storage' = Some "null")
          \/ (getToken storage = Some "null" /\ getToken storage' = None)).
Proof.
  split; [|split; [|split]].
  - intros token H. unfold getAuthHeaders, getToken, TOKEN_KEY. now rewrite H.
  - intros H. unfold getAuthHeaders, getToken, TOKEN_KEY. now rewrite H.
  - intros base render id data semester academicYear excludeId.
    repeat constructor.
  - unfold getAuthHeaders.
    destruct (getToken storage) as [t|], (getToken storage') as [t'|];
      cbn [template_of]; split.
    + intros [= H]. left. now f_equal.
    + intros [[= ->]|[[H _]|[_ H]]]; [reflexivity | discriminate H | discriminate H].
    + intros [= H]. right. right. now subst.
    + intros [H|[[H _]|[[= ->] _]]]; [discriminate H | discriminate H | reflexivity].
    + intros [= H]. right. left. now subst.
    + intros [H|[[_ [= ->]]|[H _]]]; [discriminate H | reflexivity | discriminate H].
    + now left.
    + reflexivity.
Qed.


(** X12: the URL of one schedule determines its identifier; update and
    delete use that same URL; and it is not the URL of the list of
    schedules, nor of the schedule of a class or of a teacher, nor of the
    check of conflicts, whatever their arguments. *)
Theorem getSchedule_url base storage (scheduleId : Z) :
  (forall other,
      HttpRequest.url (getSchedule base storage scheduleId)
      = HttpRequest.url (getSchedule base storage other) ->
      scheduleId = other)
  /\ (forall data,
         HttpRequest.url (updateSchedule base storage scheduleId data)
         = HttpRequest.url (getSchedule base storage scheduleId))
  /\ HttpRequest.url (deleteSchedule base storage scheduleId)
     = HttpRequest.url (getSchedule base storage scheduleId)
  /\ HttpRequest.url (getSchedule base storage scheduleId)
     <> HttpRequest.url (getAllSchedules base storage)
  /\ (forall id semester academicYear,
         HttpRequest.url (getSchedule base storage scheduleId)
         <> HttpRequest.url (getClassSchedule base storage id semester academicYear)
         /\ HttpRequest.url (getSchedule base storage scheduleId)
            <> HttpRequest.url (getTeacherSchedule base storage id semester academicYear))
  /\ (forall render data excludeId,
         HttpRequest.url (getSchedule base storage scheduleId)
         <> HttpRequest.url (checkConflicts base storage render data excludeId)).
Proof.
  assert (Hhead : forall rest c,
             Number_toString scheduleId = String c rest ->
             isDigit c = false -> c <> "-"%char -> False).
  { intros rest c E Hd Hm.
    destruct (Number_toString_head scheduleId) as (c' & rest' & E' & [H|H]);
      rewrite E in E'; injection E' as <- <-; congruence. }
  split; [|split; [|split; [|split; [|split]]]].
  - intros other H. cbn [getSchedule HttpRequest.url] in H.
    apply append_cancel in H. injection H as H.
    now apply Number_toString_injective.
  - reflexivity.
  - reflexivity.
  - cbn [getSchedule getAllSchedules HttpRequest.url]. intros H.
    rewrite <- (append_empty (apiUrl base)) in H at 2.
    apply append_cancel in H. discriminate H.
  - intros id semester academicYear.
    rewrite getClassSchedule_url, getTeacherSchedule_url.
    cbn [getSchedule HttpRequest.url].
    split; intros H; apply append_cancel in H; injection H as H;
      apply (Hhead _ _ H); [reflexivity | discriminate | reflexivity | discriminate].
  - intros render data excludeId. unfold checkConflicts.
    cbn [getSchedule HttpRequest.url]. intros H.
    destruct excludeId as [x|]; [destruct (truthy_number x)|];
      apply append_cancel in H; injection H as H;
      apply (Hhead _ _ H); solve [reflexivity | discriminate].
Qed.

(** X13: the URL of the schedule of a class, and of a teacher, is its
    path followed by the query of the filters given; a filter that is the
    empty string counts as not given, and without a filter there is no
    query. *)
Theorem getClassSchedule_query base storage (id : Z) (semester academicYear : option string) :
  HttpRequest.url (getClassSchedule base storage id semester academicYear)
  = (apiUrl base ++ "/class/" ++ Number_toString id
       ++ query semester academicYear)%string
  /\ HttpRequest.url (getTeacherSchedule base storage id semester academicYear)
     = (apiUrl base ++ "/teacher/" ++ Number_toString id
          ++ query semester academicYear)%string.
Proof. split; [apply getClassSchedule_url | apply getTeacherSchedule_url]. Qed.

(** The marks of a query: one [=] for each filter given, one [&] between
    two, one [?] when there is a filter, and no [#] and no [/]. *)
Lemma query_marks (semester academicYear : option string) :
  occurrences "=" (query semester academicYear) = count [semester; academicYear]
  /\ occurrences "&" (query semester academicYear)
     = Nat.pred (count [semester; academicYear])
  /\ occurrences "?" (query semester academicYear)
     = Nat.min 1 (count [semester; academicYear])
  /\ occurrences "#" (query semester academicYear) = 0%nat
  /\ occurrences "/" (query semester academicYear) = 0%nat.
Proof.
  unfold query, count. cbn [filter].
  destruct (given semester) as [s|], (given academicYear) as [y|];
    cbn [List.length]; rewrite ?occurrences_append,
      ?occurrences_urlencode by reflexivity;
    repeat split; reflexivity.
Qed.

(** X14: whatever the filters hold, the URL of the schedule of a class,
    and of a teacher, has beyond the URL without filters one [=] for each
    filter given, one [&] between two, one [?] when there is a filter, and
    no [#] and no [/]: a value cannot add a parameter, a path or a
    fragment. *)
Theorem getClassSchedule_filters base storage (id : Z)
        (semester academicYear : option string) :
  let filters := count [semester; academicYear] in
  let adds (c : ascii) (n : nat) (request bare : HttpRequest.t) : Prop :=
    occurrences c (HttpRequest.url request)
    = (occurrences c (HttpRequest.url bare) + n)%nat in
  Forall (fun '(request, bare) =>
            (exists added,
                HttpRequest.url request
                = (HttpRequest.url bare ++ added)%string)
            /\ adds "="%char filters request bare
            /\ adds "&"%char (Nat.pred filters) request bare
            /\ adds "?"%char (Nat.min 1 filters) request bare
            /\ adds "#"%char 0%nat request bare
            /\ adds "/"%char 0%nat request bare)
         [ (getClassSchedule base storage id semester academicYear,
            getClassSchedule base storage id None None);
           (getTeacherSchedule base storage id semester academicYear,
            getTeacherSchedule base storage id None None) ].
Proof.
  cbv zeta.
  destruct (query_marks semester academicYear) as (He & Ha & Hq & Hh & Hs).
  repeat constructor;
    rewrite ?getClassSchedule_url, ?getTeacherSchedule_url;
    try (exists (query semester academicYear);
         change (query None None) with "";
         rewrite !append_empty, !append_associative; reflexivity);
    change (query None None) with "";
    rewrite <- !append_associative, append_empty, occurrences_append;
    congruence.
Qed.

Lemma urlencode_academic_year (year : string) :
  yearPattern_test year = true -> urlencode year = year /\ truthy_string year = true.
Proof.
  intros H. split.
  - apply urlencode_plain. unfold yearPattern_test in H.
    destruct (list_ascii_of_string year)
      as [|y1 [|y2 [|y3 [|y4 [|d [|z1 [|z2 [|z3 [|z4 [|]]]]]]]]]];
      try discriminate H.
    cbn [forallb] in H |- *.
    rewrite !andb_true_iff in H.
    destruct H as [[(Y1 & Y2 & Y3 & Y4 & _) Hd] (Z1 & Z2 & Z3 & Z4 & _)].
    apply Ascii.eqb_eq in Hd. subst d.
    rewrite (@isDigit_plain y1 Y1), (@isDigit_plain y2 Y2), (@isDigit_plain y3 Y3),
      (@isDigit_plain y4 Y4), (@isDigit_plain z1 Z1), (@isDigit_plain z2 Z2),
      (@isDigit_plain z3 Z3), (@isDigit_plain z4 Z4).
    reflexivity.
  - destruct year; [discriminate H | reflexivity].
Qed.

(** X15: an academic year that the pattern of the validator accepts is
    written into the URL as it is. *)
Theorem getClassSchedule_valid_year base storage (id : Z) (year : string) :
  yearPattern_test year = true ->
  HttpRequest.url (getClassSchedule base storage id None (Some year))
  = (apiUrl base ++ "/class/" ++ Number_toString id
       ++ "?academic_year=" ++ year)%string
  /\ HttpRequest.url (getTeacherSchedule base storage id None (Some year))
     = (apiUrl base ++ "/teacher/" ++ Number_toString id
          ++ "?academic_year=" ++ year)%string.
Proof.
  intros H. destruct (urlencode_academic_year year H) as [He Ht].
  rewrite getClassSchedule_url, getTeacherSchedule_url.
  unfold query, given. rewrite Ht, He. split; reflexivity.
Qed.

(** X15 at the academic year 2024-2025 for class 3. *)
Lemma getClassSchedule_valid_year_witness :
  HttpRequest.url (getClassSchedule "/api" [] 3 None (Some "2024-2025"))
  = (apiUrl "/api" ++ "/class/" ++ Number_toString 3
       ++ "?academic_year=" ++ "2024-2025")%string
  /\ HttpRequest.url (getTeacherSchedule "/api" [] 3 None (Some "2024-2025"))
     = (apiUrl "/api" ++ "/teacher/" ++ Number_toString 3
          ++ "?academic_year=" ++ "2024-2025")%string.
Proof. apply getClassSchedule_valid_year. reflexivity. Defined.
End RequestExtras.
